(** * create_presentation.py: the slide-deck generator

    A shallow embedding of [create_presentation.py] and of the part of the
    presentation library's object model the script reads or writes.

    - The script mutates one presentation object and, at the end, the file
      system and the console.  Mutation is explicit state passing in a
      state-and-exception monad [M St A]: the state survives a raise, as a
      Python object does.
    - A Python reference ([slide], [table], [tf], [p], [cell]) is the position
      of the object inside its owner; code that works through a reference runs
      [zoom]ed on that position and the owner is updated with the outcome,
      also when the code raises.
    - Library objects are records of the properties the script touches.
      Indexing a collection is checked against its length as in Python, and
      where the library validates a value the script assigns (the level of a
      paragraph, the width of a column, the width of the frame of a table) or
      divides by one (the grid of a new table), the model raises as the
      library does.
    - A text is a Python [str] the XML layer accepts, given by its UTF-8
      bytes.  Assigning a text splits it into paragraphs, runs and line
      breaks and escapes control characters as the library does; reading it
      joins them again.
    - Lengths are integers in EMU.  [Inches] computes in binary64 floating
      point, like the [float] of Python; a decimal literal is its nearest
      binary64 value, and the widths of the columns are floats, as in the
      calls of [main].
    - A list is of a length a machine can hold: below [2^63], so that the
      float of a length is the float of a 63-bit integer, and far below the
      [10^13] rows from which on the library's range check of the height of a
      row could fail; the heights of the rows are not modelled. *)

From Stdlib Require Import ZArith Ascii String DecimalString Floats Uint63.
From stdpp Require Import gmap strings list fin_maps.

Set Warnings "-inexact-float".

Open Scope string_scope.
Open Scope list_scope.
Open Scope nat_scope.

(** ** Exceptions and the state monad *)

Inductive Exn : Type :=
  | IndexError
  | KeyError
  | AttributeError
  | TypeError
  | PermissionError
  | ValueError
  | OverflowError
  | ZeroDivisionError.

Inductive result (A : Type) : Type :=
  | Ok (a : A)
  | Raise (e : Exn).
Arguments Ok {A} a.
Arguments Raise {A} e.

Definition M (St A : Type) : Type := St → result A * St.

Definition ret {St A} (a : A) : M St A := λ s, (Ok a, s).

Definition raise {St A} (e : Exn) : M St A := λ s, (Raise e, s).

Definition bind {St A B} (m : M St A) (k : A → M St B) : M St B :=
  λ s, match m s with
       | (Ok a, s') => k a s'
       | (Raise e, s') => (Raise e, s')
       end.

Definition gets {St A} (f : St → A) : M St A := λ s, (Ok (f s), s).

Definition modify {St} (f : St → St) : M St unit := λ s, (Ok tt, f s).

(** An expression without effect on the state: its value, or its
    exception. *)
Definition eval {St A} (r : result A) : M St A := λ s, (r, s).

Declare Scope py_scope.
Delimit Scope py_scope with py.
Notation "x <- m ;; k" := (bind m (λ x, k))
  (at level 100, m at next level, k at level 200, right associativity) : py_scope.
Notation "m ;; k" := (bind m (λ _, k))
  (at level 100, k at level 200, right associativity) : py_scope.
Open Scope py_scope.

(** Work through a reference: [get] finds the referenced part of the state
    ([e] is raised when there is none), [set] writes it back. *)
Definition zoom {St T A} (get : St → option T) (set : T → St → St) (e : Exn)
    (m : M T A) : M St A :=
  λ s, match get s with
       | None => (Raise e, s)
       | Some t => let '(r, t') := m t in (r, set t' s)
       end.

(** [for k, x in enumerate(l, start)] *)
Fixpoint for_from {St A} (start : nat) (l : list A) (body : nat → A → M St unit)
    : M St unit :=
  match l with
  | [] => ret tt
  | x :: l' => body start x ;; for_from (S start) l' body
  end.

Definition for_enumerate {St A} (l : list A) (body : nat → A → M St unit)
    : M St unit :=
  for_from 0 l body.

(** [l[i]] on a Python list *)
Definition index {St A} (l : list A) (i : nat) : M St A :=
  match l !! i with
  | Some x => ret x
  | None => raise IndexError
  end.

(** Truth value of an optional list: [None] and [[]] are false. *)
Definition truthy {A} (o : option (list A)) : bool :=
  match o with
  | Some (_ :: _) => true
  | _ => false
  end.

(** ** Numbers and lengths *)

(** [int(x)] of a float: the digits after the point are dropped; an infinity
    and not-a-number have no integer. *)
Definition int_of_float (x : float) : result Z :=
  match Prim2SF x with
  | S754_zero _ => Ok 0%Z
  | S754_finite s m e =>
      let magnitude :=
        if (0 <=? e)%Z then (Zpos m * 2 ^ e)%Z else (Zpos m / 2 ^ (- e))%Z in
      Ok (if s then (- magnitude)%Z else magnitude)
  | S754_infinity _ => Raise OverflowError
  | S754_nan => Raise ValueError
  end.

(** The float of a list length, as in [0.8 * rows]. *)
Definition float_of_nat (n : nat) : float :=
  PrimFloat.of_uint63 (Uint63.of_Z (Z.of_nat n)).

Definition EMUS_PER_INCH : float := 914400.
Definition EMUS_PER_PT : Z := 12700.

(** [Inches(x)] is [int(x * 914400)]. *)
Definition Inches (x : float) : result Z := int_of_float (x * EMUS_PER_INCH).

Definition Pt (x : Z) : Z := x * EMUS_PER_PT.

(** The values the library accepts for a coordinate, such as the width of a
    column, and for an extent, such as the width of a frame. *)
Definition coordinate (x : Z) : Prop := (-27273042329600 ≤ x ≤ 27273042316900)%Z.

Definition positive_coordinate (x : Z) : Prop := (0 ≤ x ≤ 27273042316900)%Z.

(** ** Text *)

Record RGBColor : Type := RGB { red : Z; green : Z; blue : Z }.

Record Font : Type := mkFont {
  font_bold : option bool;
  font_size : option Z;
  font_color : option RGBColor
}.

Definition default_font : Font := mkFont None None None.

Record Run : Type := mkRun { run_text : string; run_font : Font }.

(** The content of a paragraph is a sequence of runs and line breaks. *)
Inductive Inline : Type :=
  | TextRun (r : Run)
  | LineBreak.

Record Paragraph : Type := mkParagraph { content : list Inline; level : Z }.

(** [p.runs]: the runs, without the line breaks *)
Definition runs (p : Paragraph) : list Run :=
  omap (λ x, match x with TextRun r => Some r | LineBreak => None end) (content p).

(** A text frame is its list of paragraphs. *)
Abbreviation TextFrame := (list Paragraph).

Definition LF : ascii := "010"%char.
Definition VT : ascii := "011"%char.

(** [s.split("\n")] *)
Fixpoint split_lines (s : string) : list string :=
  match s with
  | EmptyString => [EmptyString]
  | String c s' =>
      if Ascii.eqb c LF then EmptyString :: split_lines s'
      else match split_lines s' with
           | [] => [String c EmptyString]
           | h :: t => String c h :: t
           end
  end.

(** ["\n".join(l)] *)
Fixpoint join_lines (l : list string) : string :=
  match l with
  | [] => EmptyString
  | [x] => x
  | x :: l' => x +:+ String LF (join_lines l')
  end.

(** [re.split("\n|\v", s)] *)
Fixpoint split_breaks (s : string) : list string :=
  match s with
  | EmptyString => [EmptyString]
  | String c s' =>
      if Ascii.eqb c LF || Ascii.eqb c VT then EmptyString :: split_breaks s'
      else match split_breaks s' with
           | [] => [String c EmptyString]
           | h :: t => String c h :: t
           end
  end.

(** The characters the library escapes in the text of a run:
    [[\x00-\x08\x0B-\x1F]]. *)
Definition is_ctrl_char (c : ascii) : bool :=
  let n := nat_of_ascii c in (n <=? 8) || ((11 <=? n) && (n <=? 31)).

Definition hex_digit (n : nat) : ascii :=
  default "0"%char (list_ascii_of_string "0123456789ABCDEF" !! n).

(** ["_x%04X_" % ord(c)] for a character below 256 *)
Definition escape_char (c : ascii) : string :=
  let n := nat_of_ascii c in
  "_x00" +:+ String (hex_digit (n / 16)) (String (hex_digit (n mod 16)) "_").

(** Each control character is replaced by its escape. *)
Fixpoint escape_ctrl_chars (s : string) : string :=
  match s with
  | EmptyString => EmptyString
  | String c s' =>
      if is_ctrl_char c then escape_char c +:+ escape_ctrl_chars s'
      else String c (escape_ctrl_chars s')
  end.

(** [for idx, r_str in enumerate(pieces, idx)]: a line break before every
    piece but the first, and a run for every piece that is not empty. *)
Fixpoint append_pieces (idx : nat) (pieces : list string) : list Inline :=
  match pieces with
  | [] => []
  | r_str :: pieces' =>
      (if decide (0 < idx) then [LineBreak] else [])
      ++ (if decide (r_str = EmptyString) then []
          else [TextRun (mkRun (escape_ctrl_chars r_str) default_font)])
      ++ append_pieces (S idx) pieces'
  end.

(** The content a paragraph gets from [append_text(s)]. *)
Definition append_text (s : string) : list Inline :=
  append_pieces 0 (split_breaks s).

Definition empty_paragraph : Paragraph := mkParagraph [] 0.

Definition empty_text_frame : TextFrame := [empty_paragraph].

(** The text of a run or of a line break; a line break reads as a vertical
    tab. *)
Definition inline_text (x : Inline) : string :=
  match x with
  | TextRun r => run_text r
  | LineBreak => String VT EmptyString
  end.

(** reading [p.text] *)
Definition paragraph_text (p : Paragraph) : string :=
  foldr String.append EmptyString (inline_text <$> content p).

(** reading [shape.text] / [cell.text] *)
Definition text_frame_text (tf : TextFrame) : string :=
  join_lines (paragraph_text <$> tf).

(** [p.text = s]: the content is replaced, the paragraph properties stay. *)
Definition set_paragraph_text (s : string) : M Paragraph unit :=
  modify (λ p, mkParagraph (append_text s) (level p)).

(** [p.level = n]: the library accepts the levels 0 to 8. *)
Definition set_paragraph_level (n : Z) : M Paragraph unit :=
  λ p, if decide (0 ≤ n ≤ 8)%Z then (Ok tt, mkParagraph (content p) n)
       else (Raise ValueError, p).

(** [text_frame.text = s]: one fresh paragraph per line of [s]. *)
Definition set_text (s : string) : M TextFrame unit :=
  modify (λ _, (λ line, mkParagraph (append_text line) 0) <$> split_lines s).

(** [tf.clear()]: all paragraphs but the first go, the first loses its
    content. *)
Definition clear : M TextFrame unit :=
  modify (λ tf, match tf with
                | [] => []
                | p :: _ => [mkParagraph [] (level p)]
                end).

(** [tf.paragraphs[i]], as a reference *)
Definition paragraph_at (i : nat) : M TextFrame nat :=
  λ tf, if decide (i < length tf) then (Ok i, tf) else (Raise IndexError, tf).

(** [tf.add_paragraph()], a reference to the new last paragraph *)
Definition add_paragraph : M TextFrame nat :=
  λ tf, (Ok (length tf), tf ++ [empty_paragraph]).

Definition on_paragraph {A} (p : nat) : M Paragraph A → M TextFrame A :=
  zoom (λ tf, tf !! p) (λ x tf, <[p := x]> tf) IndexError.

(** ** Tables *)

Inductive Fill : Type :=
  | NoFill
  | SolidFill (fore_color : option RGBColor).

Record Cell : Type := mkCell { cell_text_frame : TextFrame; cell_fill : Fill }.

Definition empty_cell : Cell := mkCell empty_text_frame NoFill.

(** A table: the position and the size of its frame, the widths of its
    columns and its cells, row by row.  The heights of the rows, which the
    script does not touch, are not kept. *)
Record Table : Type := mkTable {
  tbl_left : Z;
  tbl_top : Z;
  tbl_width : Z;
  tbl_height : Z;
  tbl_columns : list Z;
  tbl_rows : list (list Cell)
}.

(** [a // b] on integers *)
Definition floordiv (a b : Z) : result Z :=
  if decide (b = 0%Z) then Raise ZeroDivisionError else Ok (a / b)%Z.

(** The grid of a new table, [for col in range(cols)]: every column gets
    [colwidth], the last one what is left of [width]. *)
Definition new_columns (cols : nat) (width colwidth : Z) : list Z :=
  (λ col, if decide (col = cols - 1)
          then (width - (Z.of_nat cols - 1) * colwidth)%Z
          else colwidth) <$> seq 0 cols.

(** [cell.text = s] *)
Definition set_cell_text (s : string) : M Cell unit :=
  zoom (λ c, Some (cell_text_frame c)) (λ tf c, mkCell tf (cell_fill c))
       AttributeError (set_text s).

(** [cell.fill.solid()] *)
Definition fill_solid : M Cell unit :=
  modify (λ c, mkCell (cell_text_frame c)
                 match cell_fill c with
                 | SolidFill col => SolidFill col
                 | NoFill => SolidFill None
                 end).

(** [cell.fill.fore_color.rgb = col]: only a solid fill has a foreground
    colour. *)
Definition set_fore_color (col : RGBColor) : M Cell unit :=
  λ c, match cell_fill c with
       | SolidFill _ => (Ok tt, mkCell (cell_text_frame c) (SolidFill (Some col)))
       | NoFill => (Raise TypeError, c)
       end.

(** The font of every run of a paragraph changed by [body]. *)
Definition map_fonts (body : Font → Font) (p : Paragraph) : Paragraph :=
  mkParagraph
    ((λ x, match x with
           | TextRun r => TextRun (mkRun (run_text r) (body (run_font r)))
           | LineBreak => LineBreak
           end) <$> content p)
    (level p).

(** [for paragraph in cell.text_frame.paragraphs: for run in paragraph.runs:]
    with a body that assigns font properties of [run]. *)
Definition for_each_run (body : Font → Font) : M Cell unit :=
  modify (λ c, mkCell (map_fonts body <$> cell_text_frame c) (cell_fill c)).

Definition set_columns (columns : list Z) (t : Table) : Table :=
  mkTable (tbl_left t) (tbl_top t) (tbl_width t) (tbl_height t) columns (tbl_rows t).

Definition set_width (width : Z) (t : Table) : Table :=
  mkTable (tbl_left t) (tbl_top t) width (tbl_height t) (tbl_columns t) (tbl_rows t).

Definition sum_list (l : list Z) : Z := foldr Z.add 0%Z l.

(** [table.columns[i].width = w]: the column must exist and [w] be a
    coordinate; then the frame of the table gets the sum of the column
    widths as its width, which must be a positive coordinate. *)
Definition set_column_width (i : nat) (w : Z) : M Table unit :=
  zoom (λ t, tbl_columns t !! i) (λ x t, set_columns (<[i := x]> (tbl_columns t)) t)
       IndexError
       (λ x, if decide (coordinate w) then (Ok tt, w) else (Raise ValueError, x)) ;;
  λ t, let new_table_width := sum_list (tbl_columns t) in
       if decide (positive_coordinate new_table_width)
       then (Ok tt, set_width new_table_width t)
       else (Raise ValueError, t).

(** [cell = table.rows[i].cells[j]] *)
Definition on_cell {A} (i j : nat) : M Cell A → M Table A :=
  zoom (λ t, row ← tbl_rows t !! i; row !! j)
       (λ c t, mkTable (tbl_left t) (tbl_top t) (tbl_width t) (tbl_height t)
                 (tbl_columns t)
                 (alter (λ row, <[j := c]> row) i (tbl_rows t)))
       IndexError.

(** ** Slides and the presentation *)

(** The slide layouts of the library's default template, in order. *)
Inductive Layout : Type :=
  | TitleSlide
  | TitleAndContent
  | SectionHeader
  | TwoContent
  | Comparison
  | TitleOnly
  | Blank
  | ContentWithCaption
  | PictureWithCaption
  | TitleAndVerticalText
  | VerticalTitleAndText.

Definition has_title (l : Layout) : bool :=
  match l with
  | Blank => false
  | _ => true
  end.

(** Does the layout have a placeholder with idx 1? *)
Definition has_body (l : Layout) : bool :=
  match l with
  | TitleOnly | Blank => false
  | _ => true
  end.

Record Slide : Type := mkSlide {
  slide_layout : Layout;
  slide_title : option TextFrame;     (* [slide.shapes.title] *)
  slide_body : option TextFrame;      (* [slide.placeholders[1]] *)
  slide_tables : list Table           (* the tables added to [slide.shapes] *)
}.

Record Presentation : Type := mkPresentation {
  slide_width : Z;
  slide_height : Z;
  slides : list Slide
}.

(** [Presentation()]: the default template, 4:3, no slides. *)
Definition Presentation_new : Presentation :=
  mkPresentation 9144000 6858000 [].

Definition slide_layouts : list Layout :=
  [TitleSlide; TitleAndContent; SectionHeader; TwoContent; Comparison;
   TitleOnly; Blank; ContentWithCaption; PictureWithCaption;
   TitleAndVerticalText; VerticalTitleAndText].

Definition new_slide (l : Layout) : Slide :=
  mkSlide l
    (if has_title l then Some empty_text_frame else None)
    (if has_body l then Some empty_text_frame else None)
    [].

(** [prs.slides.add_slide(layout)], a reference to the new last slide *)
Definition add_slide (l : Layout) : M Presentation nat :=
  λ prs, (Ok (length (slides prs)),
          mkPresentation (slide_width prs) (slide_height prs)
            (slides prs ++ [new_slide l])).

Definition on_slide {A} (slide : nat) : M Slide A → M Presentation A :=
  zoom (λ prs, slides prs !! slide)
       (λ s prs, mkPresentation (slide_width prs) (slide_height prs)
                   (<[slide := s]> (slides prs)))
       IndexError.

(** [slide.shapes.title]: [None] has no [text] to assign. *)
Definition on_title {A} : M TextFrame A → M Slide A :=
  zoom slide_title
       (λ tf s, mkSlide (slide_layout s) (Some tf) (slide_body s) (slide_tables s))
       AttributeError.

(** [slide.placeholders[idx]], looked up by placeholder idx *)
Definition on_placeholder {A} (idx : nat) : M TextFrame A → M Slide A :=
  zoom (λ s, match idx with
             | 0 => slide_title s
             | 1 => slide_body s
             | _ => None
             end)
       (λ tf s, match idx with
                | 0 => mkSlide (slide_layout s) (Some tf) (slide_body s) (slide_tables s)
                | 1 => mkSlide (slide_layout s) (slide_title s) (Some tf) (slide_tables s)
                | _ => s
                end)
       KeyError.

(** [slide.shapes.add_table(rows, cols, left, top, width, height).table]:
    the table is built first, beginning with [height // rows] and
    [width // cols]; when that raises, no shape is added. *)
Definition add_table (rows cols : nat) (left top width height : Z) : M Slide nat :=
  rowheight <- eval (floordiv height (Z.of_nat rows)) ;;
  colwidth <- eval (floordiv width (Z.of_nat cols)) ;;
  let table := mkTable left top width height (new_columns cols width colwidth)
                 (replicate rows (replicate cols empty_cell)) in
  λ s, (Ok (length (slide_tables s)),
        mkSlide (slide_layout s) (slide_title s) (slide_body s)
          (slide_tables s ++ [table])).

Definition on_table {A} (table : nat) : M Table A → M Slide A :=
  zoom (λ s, slide_tables s !! table)
       (λ t s, mkSlide (slide_layout s) (slide_title s) (slide_body s)
                 (<[table := t]> (slide_tables s)))
       IndexError.

(** [str(x)] of a string *)
Definition str (s : string) : string := s.

(** ** The three helpers

    [prs] is the state; the returned slide is its position in [prs.slides]. *)

Definition create_title_slide (title subtitle : string) : M Presentation nat :=
  layout <- index slide_layouts 0 ;;
  slide <- add_slide layout ;;
  on_slide slide (
    on_title (set_text title) ;;
    on_placeholder 1 (set_text subtitle)) ;;
  ret slide.

Definition create_content_slide (title : string)
    (bullet_points : option (list (Z * string))) : M Presentation nat :=
  layout <- index slide_layouts 1 ;;
  slide <- add_slide layout ;;
  on_slide slide (
    on_title (set_text title) ;;
    if truthy bullet_points then
      on_placeholder 1 (
        clear ;;
        for_enumerate (default [] bullet_points) (λ i '(level, text),
          p <- (if decide (i = 0) then paragraph_at 0 else add_paragraph) ;;
          on_paragraph p (
            set_paragraph_text text ;;
            set_paragraph_level level)))
    else ret tt) ;;
  ret slide.

Definition header_fill : RGBColor := RGB 68 114 196.
Definition white : RGBColor := RGB 255 255 255.

Definition create_table_slide (title : string) (data : list (list string))
    (col_widths : option (list float)) : M Presentation nat :=
  layout <- index slide_layouts 5 ;;
  slide <- add_slide layout ;;
  on_slide slide (
    on_title (set_text title) ;;
    let rows := length data in
    row0 <- index data 0 ;;
    let cols := length row0 in
    left <- eval (Inches 1.0) ;;
    top <- eval (Inches 2.0) ;;
    width <- eval (Inches 8.0) ;;
    height <- eval (Inches (0.8 * float_of_nat rows)) ;;
    table <- add_table rows cols left top width height ;;
    on_table table (
      (* Spaltenbreiten setzen *)
      (if truthy col_widths then
         for_enumerate (default [] col_widths) (λ i width,
           w <- eval (Inches width) ;;
           set_column_width i w)
       else ret tt) ;;
      (* Tabelle füllen *)
      for_enumerate data (λ i row,
        for_enumerate row (λ j cell_text,
          on_cell i j (
            set_cell_text (str cell_text) ;;
            (* Header-Zeile formatieren *)
            if decide (i = 0) then
              fill_solid ;;
              set_fore_color header_fill ;;
              for_each_run (λ _, mkFont (Some true) (Some (Pt 12)) (Some white))
            else
              for_each_run (λ f, mkFont (font_bold f) (Some (Pt 11)) (font_color f))))))) ;;
  ret slide.

(** ** The driver *)

Definition dq : string := String "034"%char EmptyString.

(** The helper calls of [main], in program order. *)
Definition main_calls : list (M Presentation nat) := [
  (* Folie 1 *)
  create_title_slide
    "Data Mining: Betrugserkennung"
    "Klassifikation von E-Commerce Bestellungen" ;
  (* Folie 2 *)
  create_content_slide
    "Agenda"
    (Some [(0%Z, "1. Einführung und Problemstellung");
           (0%Z, "2. Datenanalyse und -vorbereitung (CRISP-DM)");
           (0%Z, "3. Attributanalyse und Feature Engineering");
           (0%Z, "4. Modellauswahl und Training");
           (0%Z, "5. Modellbewertung und Optimierung");
           (0%Z, "6. Vorhersage und Fazit")]) ;
  (* Folie 3 *)
  create_content_slide
    "1. Einführung und Problemstellung"
    (Some [(0%Z, "Szenario: Betrugserkennung im Online-Handel");
           (1%Z, "Herausforderung: Ware gegen Geld nicht direkt umsetzbar");
           (1%Z, "Risiko: Bestellungen ohne Zahlungseingang");
           (0%Z, "Data Mining Aufgabe:");
           (1%Z, "Typ: Klassifikationsproblem (Überwachtes Lernen)");
           (1%Z, "Zielattribut: TARGET_BETRUG (diskret: ja/nein)");
           (0%Z, "Datensatz: 30.000 E-Commerce Bestellungen");
           (1%Z, "Training: 24.000 Datensätze (80% - Holdout-Methode)");
           (1%Z, "Test: 6.000 Datensätze (20%)");
           (1%Z, "Klassifizierung: 20.000 neue Bestellungen")]) ;
  (* Folie 4 *)
  create_content_slide
    "2. Datenanalyse (CRISP-DM: Data Understanding)"
    (Some [(0%Z, "Explorative Datenanalyse der Trainingsdaten:");
           (1%Z, "30.000 Bestellungen mit 43 Attributen");
           (1%Z, "Zielattribut TARGET_BETRUG analysiert");
           (0%Z, "Zentrale Erkenntnis: Stark unbalancierte Klassen");
           (1%Z, "Nur 1.746 Betrugsfälle (5,82%)");
           (1%Z, "28.254 legitime Bestellungen (94,18%)");
           (0%Z, "Implikation für Data Mining:");
           (1%Z, "❌ Accuracy allein als Gütemaß ungeeignet");
           (1%Z, "✓ Precision & Recall sind entscheidend");
           (1%Z, ("Modell könnte " +:+ dq +:+ "immer nein" +:+ dq
                +:+ " vorhersagen (94% Accuracy!)"));
           (1%Z, "→ Betrugsfälle würden nicht erkannt werden")]) ;
  (* Folie 5 *)
  create_content_slide
    "3. Attributanalyse & Feature Engineering (Data Preparation)"
    (Some [(0%Z, "Analyse der Artikelnummer-Attribute (ANUMMER_01 bis ANUMMER_10):");
           (1%Z, "Repräsentieren bestellte Artikel (Artikelnummern)");
           (1%Z, "Datentyp: Diskret (kategorisch)");
           (0%Z, "Identifizierte Probleme:");
           (1%Z, "❌ Limitation: Maximal 10 Artikel erfassbar");
           (1%Z, "❌ Bei >10 Artikeln: Datenverlust");
           (1%Z, "❌ ANUMMER_02 bis ANUMMER_10 größtenteils NULL");
           (1%Z, "❌ Hohe Dimensionalität mit vielen Leereinträgen");
           (0%Z, "Feature Engineering - Optimierungsansatz:");
           (1%Z, "✓ Zusammenführung zu ANUMMER_LIST (aggregiert)");
           (1%Z, "✓ Reduzierung der Dimensionalität (10→1 Attribut)");
           (1%Z, "✓ Bessere Datenqualität für ML-Algorithmen")]) ;
  (* Folie 6 *)
  create_content_slide
    "4. Modellauswahl und Training (CRISP-DM: Modeling)"
    (Some [(0%Z, "Implementierung: KNIME Analytics Platform");
           (0%Z, "Trainingsmethode: Holdout-Methode");
           (1%Z, "80% Trainingsdaten (24.000 Datensätze)");
           (1%Z, "20% Testdaten (6.000 Datensätze)");
           (0%Z, "Drei Klassifikationsverfahren (Überwachtes Lernen):");
           (1%Z, "1. Decision Tree (Entscheidungsbaum, Gini Index)");
           (2%Z, "Trennscharfe Entscheidungsregeln");
           (1%Z, "2. Logistic Regression (Logistische Regression)");
           (2%Z, "Lineare Trennung der Klassen");
           (1%Z, "3. Naive Bayes Classifier");
           (2%Z, "Probabilistischer Ansatz, bedingte Wahrscheinlichkeiten")]) ;
  (* Folie 7 *)
  create_content_slide
    "5. Modellbewertung (CRISP-DM: Evaluation)"
    (Some [(0%Z, "Bewertung mit Konfusionsmatrix:");
           (1%Z, "True Positive (TP): Betrug korrekt als Betrug erkannt");
           (1%Z, "True Negative (TN): Kein Betrug korrekt als legitim erkannt");
           (1%Z, "False Positive (FP): Legitim fälschlich als Betrug erkannt");
           (1%Z, "False Negative (FN): Betrug fälschlich als legitim erkannt");
           (0%Z, "Gütekriterien:");
           (1%Z, "Accuracy = (TP+TN) / Gesamt");
           (2%Z, "Gesamtgenauigkeit aller Vorhersagen");
           (1%Z, "Precision = TP / (TP+FP)");
           (2%Z, "Wie viele Betrugsvorhersagen waren korrekt?");
           (1%Z, "Recall = TP / (TP+FN)");
           (2%Z, "Wie viele Betrugsfälle wurden erkannt?")]) ;
  (* Folie 8 *)
  create_table_slide
    "5a. Decision Tree - Confusion Matrix"
    [[EmptyString; "Predicted: nein"; "Predicted: ja"];
     ["Actual: nein"; "5466 (TN)"; "193 (FP)"];
     ["Actual: ja"; "300 (FN)"; "36 (TP)"]]
    (Some [3.0%float; 2.5%float; 2.5%float]) ;
  (* Folie 9 *)
  create_content_slide
    "5a. Decision Tree - Metriken"
    (Some [(0%Z, "Berechnete Gütekriterien:");
           (1%Z, "Accuracy: 91,78% = (5466+36) / 6000");
           (1%Z, "Precision: 15,72% = 36 / (36+193)");
           (1%Z, "Recall: 9,33% = 36 / (36+300)");
           (0%Z, "Interpretation:");
           (1%Z, "✓ Erkennt tatsächlich Betrugsfälle (36 TP)");
           (1%Z, ("✓ Besser als " +:+ dq +:+ "immer nein" +:+ dq +:+ " Baseline"));
           (1%Z, "⚠ Hohe False-Positive Rate (193 Fehlalarme)");
           (1%Z, "⚠ Niedriger Recall (300 FN, 89% nicht erkannt)");
           (0%Z, "Bewertung: Einziges Modell mit relevantem Recall")]) ;
  (* Folie 10 *)
  create_content_slide
    "5b. Logistic Regression - Ergebnisse"
    (Some [(0%Z, "Confusion Matrix:");
           (1%Z, "TN: 5666, FP: 0, FN: 336, TP: 0");
           (1%Z, ("Alle Vorhersagen: " +:+ dq +:+ "nein" +:+ dq +:+ " (kein Betrug)"));
           (0%Z, "Berechnete Metriken:");
           (1%Z, "Accuracy: 94,40% = 5666 / 6000");
           (1%Z, "Precision: 0% (keine Betrugsvorhersagen)");
           (1%Z, "Recall: 0% = 0 / 336 (alle Betrugsfälle übersehen)");
           (0%Z, "❌ Fazit: Modell unbrauchbar für Betrugserkennung");
           (1%Z, "Paradox: Hohe Accuracy durch Class Imbalance");
           (1%Z, ("Modell hat aus Unbalance gelernt, immer " +:+ dq +:+ "nein" +:+ dq
                +:+ " zu sagen"));
           (1%Z, "Kein einziger Betrugsfall erkannt (0 TP)")]) ;
  (* Folie 11 *)
  create_content_slide
    "5c. Naive Bayes - Ergebnisse"
    (Some [(0%Z, "Confusion Matrix:");
           (1%Z, "TN: 5663, FP: 3, FN: 333, TP: 3");
           (0%Z, "Berechnete Metriken:");
           (1%Z, "Accuracy: 94,44% = (5663+3) / 6000");
           (1%Z, "Precision: 50,00% = 3 / (3+3)");
           (1%Z, "Recall: 0,89% = 3 / (3+333)");
           (0%Z, "Bewertung:");
           (1%Z, "✓ Hohe Precision bei Betrugsvorhersagen (50%)");
           (1%Z, "✓ Sehr wenig Fehlalarme (nur 3 FP)");
           (1%Z, "❌ Extrem niedriger Recall (0,89%)");
           (1%Z, "❌ Erkennt fast keine Betrugsfälle (nur 3 von 336)");
           (0%Z, "Fazit: Zu konservativ, praktisch unbrauchbar")]) ;
  (* Folie 12 *)
  create_table_slide
    "5d. Vergleichende Modellbewertung"
    [["Modell"; "Accuracy"; "Precision"; "Recall"; "TP"; "Bewertung"];
     ["Decision Tree"; "91,78%"; "15,72%"; "9,33%"; "36"; "⭐ GEWÄHLT"];
     ["Logistic Regression"; "94,40%"; "0%"; "0%"; "0"; "❌ Unbrauchbar"];
     ["Naive Bayes"; "94,44%"; "50,00%"; "0,89%"; "3"; "⚠ Zu konservativ"]]
    (Some [2.3%float; 1.3%float; 1.3%float; 1.3%float; 0.8%float; 2.0%float]) ;
  (* Folie 13 *)
  create_content_slide
    "5e. Maßnahmen zur Ergebnisverbesserung"
    (Some [(0%Z, "Hauptproblem: Class Imbalance (5,82% Betrug)");
           (0%Z, "Resampling-Techniken:");
           (1%Z, "Undersampling: Reduzierung der Mehrheitsklasse");
           (2%Z, "Zufällige Auswahl von legitimen Bestellungen");
           (1%Z, "SMOTE (Synthetic Minority Over-sampling Technique)");
           (2%Z, "Synthetische Generierung zusätzlicher Betrugsfälle");
           (0%Z, "Algorithmus-Optimierung:");
           (1%Z, "Hyperparameter-Tuning (Complexity_Penalty, Minimum_Support)");
           (1%Z, "Cost-Sensitive Learning (höhere Kosten für FN)");
           (0%Z, "Weitere Ansätze:");
           (1%Z, "Ensemble-Methoden (Random Forest, XGBoost)");
           (1%Z, "Feature Engineering (ANUMMER_LIST verwenden)")]) ;
  (* Folie 14 *)
  create_content_slide
    "6. Vorhersage (CRISP-DM: Deployment)"
    (Some [(0%Z, "Gewähltes Modell für Produktivbetrieb:");
           (1%Z, "✓ Decision Tree (Entscheidungsbaum)");
           (0%Z, "Begründung der Auswahl:");
           (1%Z, "Einziges Modell mit relevantem Recall (9,33%)");
           (1%Z, "Erkennt tatsächlich Betrugsfälle (36 TP)");
           (1%Z, "Trade-off: Niedrigere Accuracy, aber Betrugserkennnung");
           (0%Z, "Anwendung auf Klassifizierungsdaten:");
           (1%Z, "20.000 neue Bestellungen klassifiziert");
           (1%Z, "Datei: Klassifizierungsdaten-tree-predictions.csv");
           (0%Z, "Kritische Einschätzung:");
           (1%Z, "Performance noch verbesserungswürdig");
           (1%Z, "Optimierungsmaßnahmen empfohlen (Resampling, etc.)")]) ;
  (* Folie 15 *)
  create_content_slide
    "Zusammenfassung und Ausblick"
    (Some [(0%Z, "Zentrale Erkenntnisse:");
           (1%Z, "Class Imbalance größte Herausforderung bei Betrugserkennung");
           (1%Z, "Accuracy irreführend bei unbalancierten Daten");
           (1%Z, "Precision & Recall entscheidende Gütekriterien");
           (1%Z, "CRISP-DM-Prozess systematisch durchgeführt");
           (0%Z, "Durchgeführte Schritte:");
           (1%Z, "✓ Data Understanding (Class Imbalance identifiziert)");
           (1%Z, "✓ Data Preparation (ANUMMER Feature Engineering)");
           (1%Z, "✓ Modeling (3 Klassifikationsverfahren trainiert)");
           (1%Z, "✓ Evaluation (Konfusionsmatrix, Metriken)");
           (1%Z, "✓ Deployment (Decision Tree für Vorhersage gewählt)");
           (0%Z, "Vielen Dank für Ihre Aufmerksamkeit!")])

].

(** Statements one after the other, their values dropped. *)
Fixpoint run_calls {St A} (calls : list (M St A)) : M St unit :=
  match calls with
  | [] => ret tt
  | c :: calls' => c ;; run_calls calls'
  end.

(** [main], the slides: everything from [Presentation()] to the last helper
    call, run on the new presentation. *)
Definition main_slides : M Presentation unit :=
  width <- eval (Inches 10) ;;
  modify (λ prs, mkPresentation width (slide_height prs) (slides prs)) ;;
  height <- eval (Inches 7.5) ;;
  modify (λ prs, mkPresentation (slide_width prs) height (slides prs)) ;;
  run_calls main_calls.

(** ** The file system and the console

    The environment of a run: the files by path, the paths that cannot be
    written, the time a written file is stamped with, and the console text
    so far. *)

Record File : Type := mkFile {
  file_presentation : Presentation;
  file_mtime : nat
}.

Record World : Type := mkWorld {
  fs : gmap string File;         (* path to file *)
  readonly : gset string;        (* paths that cannot be written *)
  clock : nat;
  stdout : string
}.

(** [prs.save(path)]: the file at [path] is replaced, whatever was there. *)
Definition save (prs : Presentation) (path : string) : M World unit :=
  λ w, if decide (path ∈ readonly w) then (Raise PermissionError, w)
       else (Ok tt, mkWorld (<[path := mkFile prs (clock w)]> (fs w))
                      (readonly w) (clock w) (stdout w)).

(** [print(s)] *)
Definition print (s : string) : M World unit :=
  modify (λ w, mkWorld (fs w) (readonly w) (clock w)
                 (stdout w +:+ s +:+ String LF EmptyString)).

(** [str(n)] of a natural number *)
Definition str_nat (n : nat) : string := NilEmpty.string_of_uint (Nat.to_uint n).

(** A local variable [x] next to the state. *)
Definition on_local {L St A} (m : M L A) : M (L * St) A :=
  λ '(x, s), let '(r, x') := m x in (r, (x', s)).

Definition on_world {L St A} (m : M St A) : M (L * St) A :=
  λ '(x, s), let '(r, s') := m s in (r, (x, s')).

Definition with_local {L St A} (init : L) (m : M (L * St) A) : M St A :=
  λ s, let '(r, (_, s')) := m (init, s) in (r, s').

Definition output_file : string :=
  "Data_Mining_Betrugserkennung_Praesentation.pptx".

(** [main] from [prs = Presentation()] on, for a given slide-building block
    [build] (the statements up to the last helper call). *)
Definition script (build : M Presentation unit) : M World unit :=
  with_local Presentation_new (
    on_local build ;;
    (* Präsentation speichern *)
    prs <- gets fst ;;
    on_world (save prs output_file) ;;
    on_world (print ("✓ Präsentation erfolgreich erstellt: " +:+ output_file)) ;;
    len_slides <- on_local (gets (λ prs, length (slides prs))) ;;
    on_world (print ("✓ Anzahl Folien: " +:+ str_nat len_slides)) ;;
    on_world (print (String LF "Struktur nach CRISP-DM:")) ;;
    on_world (print "  1. Einführung und Problemstellung") ;;
    on_world (print "  2. Data Understanding (Class Imbalance)") ;;
    on_world (print "  3. Data Preparation (Feature Engineering)") ;;
    on_world (print "  4. Modeling (3 Klassifikationsverfahren)") ;;
    on_world (print "  5. Evaluation (Konfusionsmatrix, Metriken)") ;;
    on_world (print "  6. Deployment (Vorhersage)")).

(** [main()] *)
Definition main : M World unit := script main_slides.

(** ** What the statements observe *)

(** The text of a cell, of a slide title, and the bullets of a body. *)
Definition cell_text (c : Cell) : string := text_frame_text (cell_text_frame c).

Definition bullets (tf : TextFrame) : list (Z * string) :=
  (λ p, (level p, paragraph_text p)) <$> tf.

(** All the text of a slide: the title, the bullets, the cells of each table. *)
Definition slide_texts (s : Slide)
    : option string * option (list (Z * string)) * list (list (list string)) :=
  (text_frame_text <$> slide_title s,
   bullets <$> slide_body s,
   (λ t, (λ row : list Cell, cell_text <$> row) <$> tbl_rows t) <$> slide_tables s).

Definition filled (c : Cell) : bool :=
  match cell_fill c with
  | SolidFill _ => true
  | NoFill => false
  end.

Definition bold (r : Run) : bool :=
  match font_bold (run_font r) with
  | Some true => true
  | _ => false
  end.

Definition all_runs (P : Run → bool) (c : Cell) : bool :=
  forallb (λ p, forallb P (runs p)) (cell_text_frame c).

(** A header cell is filled and all its runs are bold; a data cell is not
    filled and none of its runs is bold. *)
Definition header_cell (c : Cell) : bool := filled c && all_runs bold c.

Definition data_cell (c : Cell) : bool :=
  negb (filled c) && all_runs (λ r, negb (bold r)) c.

(** Row 0 exists and is a row of header cells, every later row is a row of
    data cells. *)
Definition header_distinguished (t : Table) : bool :=
  match tbl_rows t with
  | [] => false
  | row0 :: data_rows =>
      forallb header_cell row0 && forallb (forallb data_cell) data_rows
  end.

(** The precondition of [create_table_slide]. *)
Definition table_args_ok (data : list (list string)) (col_widths : option (list float))
    : Prop :=
  ∃ row0, data !! 0 = Some row0
    ∧ Forall (λ row, length row ≤ length row0) data
    ∧ length (default [] col_widths) ≤ length row0.

(** The grid of a table is [rows] by [cols]. *)
Definition table_shape (rows cols : nat) (t : Table) : Prop :=
  length (tbl_columns t) = cols
  ∧ length (tbl_rows t) = rows
  ∧ Forall (λ row, length row = cols) (tbl_rows t).


(** The slide-level bodies of the three helpers: what each does through the
    reference [slide]. *)
Definition title_slide_body (title subtitle : string) : M Slide unit :=
  on_title (set_text title) ;;
  on_placeholder 1 (set_text subtitle).

Definition bullet_loop (bullet_points : list (Z * string)) (start : nat)
    : M TextFrame unit :=
  for_from start bullet_points (λ i '(level, text),
    p <- (if decide (i = 0) then paragraph_at 0 else add_paragraph) ;;
    on_paragraph p (
      set_paragraph_text text ;;
      set_paragraph_level level)).

Definition content_slide_body (title : string)
    (bullet_points : option (list (Z * string))) : M Slide unit :=
  on_title (set_text title) ;;
  if truthy bullet_points then
    on_placeholder 1 (clear ;; bullet_loop (default [] bullet_points) 0)
  else ret tt.

Definition format_cell (i : nat) (cell_text : string) : M Cell unit :=
  set_cell_text (str cell_text) ;;
  if decide (i = 0) then
    fill_solid ;;
    set_fore_color header_fill ;;
    for_each_run (λ _, mkFont (Some true) (Some (Pt 12)) (Some white))
  else
    for_each_run (λ f, mkFont (font_bold f) (Some (Pt 11)) (font_color f)).

Definition fill_row (i : nat) (row : list string) (start : nat) : M Table unit :=
  for_from start row (λ j cell_text, on_cell i j (format_cell i cell_text)).

Definition fill_rows (data : list (list string)) (start : nat) : M Table unit :=
  for_from start data (λ i row, fill_row i row 0).

Definition width_loop (col_widths : list float) (start : nat) : M Table unit :=
  for_from start col_widths (λ i width,
    w <- eval (Inches width) ;;
    set_column_width i w).

Definition table_body (data : list (list string)) (col_widths : option (list float))
    : M Table unit :=
  (if truthy col_widths then width_loop (default [] col_widths) 0 else ret tt) ;;
  fill_rows data 0.

Definition table_slide_body (title : string) (data : list (list string))
    (col_widths : option (list float)) : M Slide unit :=
  on_title (set_text title) ;;
  row0 <- index data 0 ;;
  left <- eval (Inches 1.0) ;;
  top <- eval (Inches 2.0) ;;
  width <- eval (Inches 8.0) ;;
  height <- eval (Inches (0.8 * float_of_nat (length data))) ;;
  table <- add_table (length data) (length row0) left top width height ;;
  on_table table (table_body data col_widths).

(** A helper call, as [main] makes them. *)
Inductive helper_call : M Presentation nat → Prop :=
  | call_title title subtitle :
      helper_call (create_title_slide title subtitle)
  | call_content title bullet_points :
      helper_call (create_content_slide title bullet_points)
  | call_table title data col_widths :
      helper_call (create_table_slide title data col_widths).

(** The presentation [main] has built when it reaches [prs.save]. *)
Definition main_deck : Presentation := snd (main_slides Presentation_new).

Definition empty_world : World := mkWorld ∅ ∅ 0 EmptyString.

(** ** Definitions for the statements about the driver *)

(** The slides a call appends to a new presentation. *)
Definition made_by (c : M Presentation nat) : list Slide :=
  slides (c Presentation_new).2.

(** Layout and title of a slide. *)
Definition slide_heading (s : Slide) : Layout * string :=
  (slide_layout s, default EmptyString (text_frame_text <$> slide_title s)).

(** The layout and the title of each helper call of [main], in program
    order. *)
Definition main_order : list (Layout * string) :=
  [(TitleSlide, "Data Mining: Betrugserkennung");
   (TitleAndContent, "Agenda");
   (TitleAndContent, "1. Einführung und Problemstellung");
   (TitleAndContent, "2. Datenanalyse (CRISP-DM: Data Understanding)");
   (TitleAndContent, "3. Attributanalyse & Feature Engineering (Data Preparation)");
   (TitleAndContent, "4. Modellauswahl und Training (CRISP-DM: Modeling)");
   (TitleAndContent, "5. Modellbewertung (CRISP-DM: Evaluation)");
   (TitleOnly, "5a. Decision Tree - Confusion Matrix");
   (TitleAndContent, "5a. Decision Tree - Metriken");
   (TitleAndContent, "5b. Logistic Regression - Ergebnisse");
   (TitleAndContent, "5c. Naive Bayes - Ergebnisse");
   (TitleOnly, "5d. Vergleichende Modellbewertung");
   (TitleAndContent, "5e. Maßnahmen zur Ergebnisverbesserung");
   (TitleAndContent, "6. Vorhersage (CRISP-DM: Deployment)");
   (TitleAndContent, "Zusammenfassung und Ausblick")].

Definition deck_texts (prs : Presentation) :=
  slide_texts <$> slides prs.

(** What [main] prints when the presentation has [n] slides, line by line. *)
Definition report (n : nat) : list string :=
  ["✓ Präsentation erfolgreich erstellt: " +:+ output_file;
   "✓ Anzahl Folien: " +:+ str_nat n;
   EmptyString;
   "Struktur nach CRISP-DM:";
   "  1. Einführung und Problemstellung";
   "  2. Data Understanding (Class Imbalance)";
   "  3. Data Preparation (Feature Engineering)";
   "  4. Modeling (3 Klassifikationsverfahren)";
   "  5. Evaluation (Konfusionsmatrix, Metriken)";
   "  6. Deployment (Vorhersage)"].

(** The console text of a list of lines. *)
Definition unlines (l : list string) : string :=
  foldr (λ line out, line +:+ String LF out) EmptyString l.

(** Worlds for the examples: one where the output path cannot be written, one
    where an older file is at the output path. *)
Definition ro_world : World := mkWorld ∅ {[output_file]} 0 EmptyString.

Definition old_world : World :=
  mkWorld {[output_file := mkFile Presentation_new 3]} ∅ 7 "$ ".

(** A slide-building block that raises: a table slide without data. *)
Definition bad_build : M Presentation unit :=
  create_table_slide "Tabelle" [] None ;; ret tt.

(** Three calls, the second of which raises. *)
Definition three_calls : list (M Presentation nat) :=
  [create_title_slide "A" "B";
   create_table_slide "T" [] None;
   create_content_slide "C" None].

(** [after] has one slide more than [before], at the end, and the slides of
    [before] as they were. *)
Definition appends_one_slide (before after : Presentation) : Prop :=
  length (slides after) = S (length (slides before))
  ∧ ∃ s, slides after = slides before ++ [s]
      ∧ ∀ i s0, slides before !! i = Some s0 → slides after !! i = Some s0.

(** ** How a text reads back

    Character by character: a control character the library escapes reads
    as its escape, a vertical tab as itself, and a line feed as [lf]: as
    itself in the text of a shape or cell, where it parts two paragraphs, and
    as a vertical tab in the text of a paragraph, where it is a line break.
    Every other character reads as itself. *)
Definition read_char (lf : ascii) (c : ascii) : string :=
  if Ascii.eqb c LF then String lf EmptyString
  else if Ascii.eqb c VT then String VT EmptyString
  else if is_ctrl_char c then escape_char c
  else String c EmptyString.

Fixpoint read_back (lf : ascii) (s : string) : string :=
  match s with
  | EmptyString => EmptyString
  | String c s' => read_char lf c +:+ read_back lf s'
  end.

(** What [shape.text] or [cell.text] reads after [s] is assigned to it, and
    what [p.text] reads after [s] is assigned to it. *)
Definition shape_text (s : string) : string := read_back LF s.

Definition bullet_text (s : string) : string := read_back VT s.

(** A text of printable characters and tabs. *)
Definition plain (s : string) : bool :=
  forallb (λ c, (32 <=? nat_of_ascii c) || (nat_of_ascii c =? 9))
          (list_ascii_of_string s).

(** The paragraph of a bullet. *)
Definition bullet_paragraph (b : Z * string) : Paragraph :=
  mkParagraph (append_text b.2) b.1.

(** The levels the library accepts. *)
Definition level_ok (b : Z * string) : Prop := (0 ≤ b.1 ≤ 8)%Z.

(** ** The table a table slide ends up with *)

Definition header_font : Font := mkFont (Some true) (Some (Pt 12)) (Some white).

Definition data_font : Font := mkFont None (Some (Pt 11)) None.

(** The text frame of a shape or cell the text [x] is assigned to. *)
Definition frame_of_text (x : string) : TextFrame :=
  (λ line, mkParagraph (append_text line) 0) <$> split_lines x.

(** A cell with the text [x], every run in font [f], and the fill [fl]. *)
Definition formatted_cell (f : Font) (fl : Fill) (x : string) : Cell :=
  mkCell (map_fonts (λ _, f) <$> frame_of_text x) fl.

(** The cell of row [i] once it is filled with [x]. *)
Definition filled_cell (i : nat) (x : string) : Cell :=
  if decide (i = 0) then formatted_cell header_font (SolidFill (Some header_fill)) x
  else formatted_cell data_font NoFill x.

(** Row [i] of a table of [cols] columns once it is filled with [row]: the
    cells past the end of [row] stay empty. *)
Definition filled_row (cols i : nat) (row : list string) : list Cell :=
  (filled_cell i <$> row) ++ replicate (cols - length row) empty_cell.

Fixpoint filled_rows (cols start : nat) (data : list (list string))
    : list (list Cell) :=
  match data with
  | [] => []
  | row :: data' => filled_row cols start row :: filled_rows cols (S start) data'
  end.

Definition set_rows (rows : list (list Cell)) (t : Table) : Table :=
  mkTable (tbl_left t) (tbl_top t) (tbl_width t) (tbl_height t) (tbl_columns t) rows.

(** The widths of [col_widths] in EMU, when [Inches] returns for each. *)
Fixpoint emu_widths (col_widths : list float) : option (list Z) :=
  match col_widths with
  | [] => Some []
  | width :: rest =>
      match Inches width, emu_widths rest with
      | Ok w, Some ws => Some (w :: ws)
      | _, _ => None
      end
  end.

(** The width of a new table, [Inches(8.0)]. *)
Definition table_width : Z := 7315200.

(** Widths the library takes whatever the number of columns: none is
    negative and, with the width of the new table, they stay within the
    largest coordinate. *)
Definition widths_accepted (col_widths : option (list float)) : bool :=
  match emu_widths (default [] col_widths) with
  | Some ws =>
      forallb (λ w, (0 <=? w)%Z) ws
      && (table_width + sum_list ws <=? 27273042316900)%Z
  | None => false
  end.

(** The first columns get the widths [ws], the others keep theirs. *)
Definition with_widths (ws : list Z) (columns : list Z) : list Z :=
  ws ++ drop (length ws) columns.

(** [Inches(0.8 * rows)] *)
Definition table_height (rows : nat) : Z :=
  match Inches (0.8 * float_of_nat rows) with
  | Ok height => height
  | Raise _ => 0%Z
  end.

(** A float with a mantissa below [2^k] and an exponent of at most [E]:
    neither an infinity nor not-a-number. *)
Definition small (k E : Z) (x : spec_float) : Prop :=
  match x with
  | S754_zero _ => True
  | S754_finite _ m e => (Zpos m < 2 ^ k)%Z ∧ (e ≤ E)%Z
  | _ => False
  end.

(** The table [add_table] appends for [rows] by [cols] cells. *)
Definition new_table (rows cols : nat) : Table :=
  mkTable 914400 1828800 table_width (table_height rows)
    (new_columns cols table_width (table_width / Z.of_nat cols))
    (replicate rows (replicate cols empty_cell)).

(** The table of [create_table_slide] for [data] and the widths [ws]. *)
Definition built_table (data : list (list string)) (ws : list Z) : Table :=
  let cols := length (default [] (data !! 0)) in
  let columns :=
    with_widths ws (new_columns cols table_width (table_width / Z.of_nat cols)) in
  mkTable 914400 1828800 (sum_list columns) (table_height (length data)) columns
    (filled_rows cols 0 data).

(** The table of slide [slide] of a presentation. *)
Definition table_of (prs : Presentation) (slide : nat) : option Table :=
  s ← slides prs !! slide; head (slide_tables s).

(** [row] as a row of [cols] texts: the cells past its end are empty. *)
Definition padded (cols : nat) (row : list string) : list string :=
  row ++ replicate (cols - length row) EmptyString.

(** * Proofs

    ** Running the monad *)

Lemma bind_ok {St A B} (m : M St A) (k : A → M St B) s a s' :
  m s = (Ok a, s') → bind m k s = k a s'.
Proof. intros H. unfold bind. by rewrite H. Qed.

Lemma bind_raise {St A B} (m : M St A) (k : A → M St B) s e s' :
  m s = (Raise e, s') → bind m k s = (Raise e, s').
Proof. intros H. unfold bind. by rewrite H. Qed.

Lemma bind_eval_ok {St A B} (r : result A) (k : A → M St B) (s : St) (a : A) :
  r = Ok a → bind (eval r) k s = k a s.
Proof. by intros ->. Qed.

Lemma bind_eval_raise {St A B} (r : result A) (k : A → M St B) (s : St) (e : Exn) :
  r = Raise e → bind (eval r) k s = (Raise e, s).
Proof. by intros ->. Qed.

Lemma zoom_some {St T A} (get : St → option T) set e (m : M T A) s t :
  get s = Some t → zoom get set e m s = ((m t).1, set (m t).2 s).
Proof. intros H. unfold zoom. rewrite H. by destruct (m t). Qed.

(** A helper: a new slide from [l], then [body] through the reference. *)
Lemma on_new_slide (l : Layout) (body : M Slide unit) (prs : Presentation) :
  (slide <- add_slide l ;; on_slide slide body ;; ret slide) prs
  = (match (body (new_slide l)).1 with
     | Ok _ => Ok (length (slides prs))
     | Raise e => Raise e
     end,
     mkPresentation (slide_width prs) (slide_height prs)
       (slides prs ++ [(body (new_slide l)).2])).
Proof.
  unfold bind at 1. unfold add_slide at 1.
  unfold bind, on_slide.
  rewrite (zoom_some _ _ _ _ _ (new_slide l)).
  2:{ simpl. rewrite lookup_app_r by lia. by rewrite Nat.sub_diag. }
  simpl.
  assert (<[length (slides prs) := (body (new_slide l)).2]> (slides prs ++ [new_slide l])
          = slides prs ++ [(body (new_slide l)).2]) as ->.
  { rewrite insert_app_r_alt by lia. by rewrite Nat.sub_diag. }
  by destruct (body (new_slide l)).1.
Qed.

Lemma create_title_slide_eq title subtitle prs :
  create_title_slide title subtitle prs
  = (match (title_slide_body title subtitle (new_slide TitleSlide)).1 with
     | Ok _ => Ok (length (slides prs))
     | Raise e => Raise e
     end,
     mkPresentation (slide_width prs) (slide_height prs)
       (slides prs ++ [(title_slide_body title subtitle (new_slide TitleSlide)).2])).
Proof. apply (on_new_slide TitleSlide). Qed.

Lemma create_content_slide_eq title bullet_points prs :
  create_content_slide title bullet_points prs
  = (match (content_slide_body title bullet_points (new_slide TitleAndContent)).1 with
     | Ok _ => Ok (length (slides prs))
     | Raise e => Raise e
     end,
     mkPresentation (slide_width prs) (slide_height prs)
       (slides prs
        ++ [(content_slide_body title bullet_points (new_slide TitleAndContent)).2])).
Proof. apply (on_new_slide TitleAndContent). Qed.

Lemma create_table_slide_eq title data col_widths prs :
  create_table_slide title data col_widths prs
  = (match (table_slide_body title data col_widths (new_slide TitleOnly)).1 with
     | Ok _ => Ok (length (slides prs))
     | Raise e => Raise e
     end,
     mkPresentation (slide_width prs) (slide_height prs)
       (slides prs
        ++ [(table_slide_body title data col_widths (new_slide TitleOnly)).2])).
Proof. apply (on_new_slide TitleOnly). Qed.

(** ** Floating point: the height of a table is a number

    [Inches(0.8 * rows)] returns for every number of rows: neither product
    overflows.  A crude bound on the exponent of a rounded product is
    enough. *)

Section rounding.
Local Open Scope Z_scope.

Lemma digits2_pos_le (p : positive) (k : Z) :
  0 ≤ k → Zpos p < 2 ^ k → Zpos (digits2_pos p) ≤ k.
Proof.
  revert k. induction p as [p IH|p IH|]; intros k Hk Hp; cbn [digits2_pos];
    (assert (0 < k) by (destruct (Z.eq_dec k 0) as [->|]; [cbn in Hp; lia | lia]));
    [| | lia];
    replace k with (Z.succ (k - 1)) in Hp by lia;
    rewrite Z.pow_succ_r in Hp by lia;
    specialize (IH (k - 1)); lia.
Qed.

Lemma digits2_pos_gt (p : positive) : Zpos p < 2 ^ Zpos (digits2_pos p).
Proof.
  induction p as [p IH|p IH|]; cbn [digits2_pos]; [| | reflexivity];
    rewrite Pos2Z.inj_succ, Z.pow_succ_r by lia; lia.
Qed.

Lemma Zdigits2_le (m k : Z) : 0 ≤ k → 0 ≤ m < 2 ^ k → Zdigits2 m ≤ k.
Proof.
  intros Hk [H0 H1]. destruct m as [|p|p]; cbn [Zdigits2]; [lia | | lia].
  by apply digits2_pos_le.
Qed.

Lemma shr_1_bound (mrs : shr_record) :
  0 ≤ shr_m mrs → 0 ≤ shr_m (shr_1 mrs) ≤ shr_m mrs.
Proof.
  destruct mrs as [m r s]. cbn [shr_m].
  destruct m as [|[p|p|]|p]; cbn; lia.
Qed.

Lemma iter_pos_shr_1_bound (n : positive) (mrs : shr_record) :
  0 ≤ shr_m mrs → 0 ≤ shr_m (SpecFloat.iter_pos shr_1 n mrs) ≤ shr_m mrs.
Proof.
  revert mrs. induction n as [n IH|n IH|]; intros mrs H; cbn [SpecFloat.iter_pos].
  - pose proof (shr_1_bound mrs H) as H1.
    pose proof (IH (shr_1 mrs) ltac:(lia)) as H2.
    pose proof (IH (SpecFloat.iter_pos shr_1 n (shr_1 mrs)) ltac:(lia)). lia.
  - pose proof (IH mrs H) as H1.
    pose proof (IH (SpecFloat.iter_pos shr_1 n mrs) ltac:(lia)). lia.
  - by apply shr_1_bound.
Qed.

Lemma shr_bound (mrs : shr_record) (e n : Z) :
  0 ≤ shr_m mrs →
  0 ≤ shr_m (shr mrs e n).1 ≤ shr_m mrs
  ∧ ((shr mrs e n).2 = e ∨ (0 < n ∧ (shr mrs e n).2 = e + n)).
Proof.
  intros H. destruct n as [|p|p]; cbn [shr fst snd]; try (split; [lia | by left]).
  split; [by apply iter_pos_shr_1_bound | right; lia].
Qed.

Lemma shr_record_of_loc_m (m : Z) (l : location) : shr_m (shr_record_of_loc m l) = m.
Proof. by destruct l as [|[]]. Qed.

Lemma shr_fexp_bound (k E m e : Z) (l : location) :
  0 ≤ k → 0 ≤ m < 2 ^ k → e ≤ E → -1074 ≤ E →
  0 ≤ shr_m (shr_fexp prec emax m e l).1 ≤ m
  ∧ (shr_fexp prec emax m e l).2 ≤ E + k.
Proof.
  intros Hk Hm He HE. unfold shr_fexp.
  pose proof (Zdigits2_le m k Hk Hm) as Hd.
  assert (0 ≤ Zdigits2 m) as Hd0 by (destruct m; cbn; lia).
  set (n := fexp prec emax (Zdigits2 m + e) - e).
  assert (e + n ≤ E + k) as Hen.
  { unfold n, fexp, SpecFloat.emin, prec, emax. lia. }
  destruct (shr_bound (shr_record_of_loc m l) e n) as [H1 H2].
  { rewrite shr_record_of_loc_m. lia. }
  rewrite shr_record_of_loc_m in H1. split; [exact H1 |].
  destruct H2 as [-> | [_ ->]]; lia.
Qed.

Lemma round_nearest_even_bound (m : Z) (l : location) :
  m ≤ round_nearest_even m l ≤ m + 1.
Proof. destruct l as [|[]]; cbn; try lia. destruct (Z.even m); lia. Qed.

(** Rounding keeps a number small. *)
Lemma binary_round_aux_small (k E : Z) (s : bool) (mx ex : Z) (lx : location) :
  0 ≤ k → 0 ≤ mx < 2 ^ k → ex ≤ E → -1074 ≤ E → E + 2 * k + 1 ≤ 971 →
  small (k + 1) (E + 2 * k + 1) (binary_round_aux prec emax s mx ex lx).
Proof.
  intros Hk Hm He HE Hfin. unfold binary_round_aux.
  pose proof (shr_fexp_bound k E mx ex lx Hk Hm He HE) as [H1 H2].
  destruct (shr_fexp prec emax mx ex lx) as [mrs1 e1]. cbn [fst snd] in H1, H2.
  pose proof (round_nearest_even_bound (shr_m mrs1) (loc_of_shr_record mrs1)) as Hr.
  set (m1 := round_nearest_even (shr_m mrs1) (loc_of_shr_record mrs1)) in *.
  assert (2 ^ (k + 1) = 2 * 2 ^ k) as Hpow by (rewrite Z.pow_add_r by lia; lia).
  pose proof (shr_fexp_bound (k + 1) (E + k) m1 e1 loc_Exact
                ltac:(lia) ltac:(lia) H2 ltac:(lia)) as [H3 H4].
  destruct (shr_fexp prec emax m1 e1 loc_Exact) as [mrs2 e2]. cbn [fst snd] in H3, H4.
  destruct (shr_m mrs2) as [|p|p] eqn:Hp; cbn [small]; [exact I | | lia].
  replace (e2 <=? emax - prec) with true
    by (symmetry; apply Z.leb_le; unfold emax, prec; lia).
  cbn [small]. lia.
Qed.

(** The product of two small numbers is small. *)
Lemma SFmul_small (k1 E1 k2 E2 : Z) (x y : spec_float) :
  0 ≤ k1 → 0 ≤ k2 → small k1 E1 x → small k2 E2 y →
  -1074 ≤ E1 + E2 → E1 + E2 + 2 * (k1 + k2) + 1 ≤ 971 →
  small (k1 + k2 + 1) (E1 + E2 + 2 * (k1 + k2) + 1) (SF64mul x y).
Proof.
  intros Hk1 Hk2 Hx Hy HE Hfin. unfold SF64mul, SFmul.
  destruct x as [sx|sx| |sx mx ex], y as [sy|sy| |sy my ey]; cbn [small] in *;
    try exact I; try contradiction.
  destruct Hx as [Hmx Hex], Hy as [Hmy Hey].
  apply binary_round_aux_small; try lia.
  rewrite Pos2Z.inj_mul, Z.pow_add_r by lia. nia.
Qed.

Lemma iter_xO (m d : positive) : Zpos (Pos.iter xO m d) = Zpos m * 2 ^ Zpos d.
Proof.
  induction d as [|d IH] using Pos.peano_ind.
  - cbn. lia.
  - rewrite Pos.iter_succ, Pos2Z.inj_xO, IH, Pos2Z.inj_succ, Z.pow_succ_r by lia. lia.
Qed.

(** The float of a 63-bit integer is small. *)
Lemma binary_normalize_small (z : Z) :
  0 ≤ z < 2 ^ 63 → small 64 127 (binary_normalize prec emax z 0 false).
Proof.
  intros [H0 H1]. destruct z as [|m|m]; cbn [binary_normalize]; [exact I | | lia].
  unfold binary_round.
  pose proof (digits2_pos_gt m) as Hgt.
  pose proof (digits2_pos_le m 63 ltac:(lia) H1) as Hle.
  set (d := Zpos (digits2_pos m)) in *.
  assert (fexp prec emax (d + 0) = d - 53) as ->
    by (unfold fexp, SpecFloat.emin, prec, emax; lia).
  unfold shl_align.
  destruct (d - 53 - 0) as [|p|p] eqn:Hp.
  - apply (binary_round_aux_small 63 0); lia.
  - apply (binary_round_aux_small 63 0); lia.
  - apply (binary_round_aux_small 63 0); try lia.
    rewrite iter_xO. split; [lia |].
    assert (2 ^ 63 = 2 ^ d * 2 ^ Zpos p * 2 ^ 10) as ->.
    { rewrite <- !Z.pow_add_r by lia. f_equal. lia. }
    assert (0 < 2 ^ Zpos p) by (apply Z.pow_pos_nonneg; lia).
    assert (0 < 2 ^ d) by (apply Z.pow_pos_nonneg; lia).
    nia.
Qed.

Lemma height_small (rows : nat) :
  small 172 619 (Prim2SF (0.8 * float_of_nat rows * EMUS_PER_INCH)%float).
Proof.
  rewrite !FloatAxioms.mul_spec. unfold float_of_nat. rewrite of_uint63_spec.
  apply (SFmul_small 118 309 53 (-33)); try lia.
  - apply (SFmul_small 53 (-53) 64 127); try lia.
    + vm_compute. split; [reflexivity | discriminate].
    + apply binary_normalize_small. apply Uint63.to_Z_bounded.
  - vm_compute. split; [reflexivity | discriminate].
Qed.
End rounding.

(** [Inches(0.8 * rows)] returns. *)
Lemma Inches_height (rows : nat) :
  Inches (0.8 * float_of_nat rows) = Ok (table_height rows).
Proof.
  unfold table_height.
  assert (∃ h, Inches (0.8 * float_of_nat rows) = Ok h) as [h ->]; [| done].
  pose proof (height_small rows) as H. unfold Inches, int_of_float.
  destruct (Prim2SF _) as [s|s| |s m e]; cbn in H; try done; by eexists.
Qed.

Lemma Inches_left : Inches 1.0 = Ok 914400%Z.
Proof. vm_compute. reflexivity. Qed.

Lemma Inches_top : Inches 2.0 = Ok 1828800%Z.
Proof. vm_compute. reflexivity. Qed.

Lemma Inches_width : Inches 8.0 = Ok table_width.
Proof. vm_compute. reflexivity. Qed.

(** ** Text: what is assigned reads back *)

Lemma append_empty_r (s : string) : s +:+ EmptyString = s.
Proof.
  induction s as [|c s IH]; [done |].
  change (String c (s +:+ EmptyString) = String c s). by rewrite IH.
Qed.

Lemma append_assoc (a b c : string) : (a +:+ b) +:+ c = a +:+ (b +:+ c).
Proof.
  induction a as [|x a IH]; [done |].
  change (String x ((a +:+ b) +:+ c) = String x (a +:+ (b +:+ c))). by rewrite IH.
Qed.

Lemma append_cons (c : ascii) (a b : string) : String c a +:+ b = String c (a +:+ b).
Proof. reflexivity. Qed.

Lemma append_nil (b : string) : EmptyString +:+ b = b.
Proof. reflexivity. Qed.

Lemma split_lines_nonempty (s : string) : split_lines s ≠ [].
Proof.
  induction s as [|c s IH]; simpl; [done |].
  destruct (Ascii.eqb c LF); [done |].
  by destruct (split_lines s).
Qed.

Lemma split_breaks_nonempty (s : string) : split_breaks s ≠ [].
Proof.
  induction s as [|c s IH]; simpl; [done |].
  destruct (Ascii.eqb c LF || Ascii.eqb c VT); [done |].
  by destruct (split_breaks s).
Qed.

(** The text of a sequence of runs and line breaks. *)
Lemma inlines_text_app (l1 l2 : list Inline) :
  foldr String.append EmptyString (inline_text <$> (l1 ++ l2))
  = foldr String.append EmptyString (inline_text <$> l1)
    +:+ foldr String.append EmptyString (inline_text <$> l2).
Proof.
  induction l1 as [|x l1 IH]; [done |].
  cbn [fmap list_fmap app foldr]. change ((x :: l1) ++ l2) with (x :: (l1 ++ l2)).
  cbn [fmap list_fmap foldr]. rewrite IH. by rewrite append_assoc.
Qed.

Lemma piece_text (r_str : string) :
  foldr String.append EmptyString
    (inline_text <$> (if decide (r_str = EmptyString) then []
                      else [TextRun (mkRun (escape_ctrl_chars r_str) default_font)]))
  = escape_ctrl_chars r_str.
Proof.
  destruct (decide (r_str = EmptyString)) as [->|_]; [done |].
  cbn. apply append_empty_r.
Qed.

(** The pieces after the first: each begins with a line break. *)
Lemma append_pieces_later (idx : nat) (pieces : list string) :
  foldr String.append EmptyString (inline_text <$> append_pieces (S idx) pieces)
  = foldr (λ r_str out, String VT (escape_ctrl_chars r_str +:+ out))
          EmptyString pieces.
Proof.
  revert idx. induction pieces as [|r_str pieces IH]; intros idx; [done |].
  cbn [append_pieces foldr]. rewrite decide_True by lia.
  rewrite !inlines_text_app, piece_text, IH. reflexivity.
Qed.

Lemma append_pieces_first (r_str : string) (pieces : list string) :
  foldr String.append EmptyString (inline_text <$> append_pieces 0 (r_str :: pieces))
  = escape_ctrl_chars r_str
    +:+ foldr (λ r_str out, String VT (escape_ctrl_chars r_str +:+ out))
              EmptyString pieces.
Proof.
  cbn [append_pieces]. rewrite decide_False by lia.
  rewrite !inlines_text_app, piece_text, append_pieces_later. reflexivity.
Qed.

Lemma paragraph_text_pieces (s : string) (n : Z) :
  paragraph_text (mkParagraph (append_text s) n)
  = match split_breaks s with
    | [] => EmptyString
    | r_str :: pieces =>
        escape_ctrl_chars r_str
        +:+ foldr (λ r_str out, String VT (escape_ctrl_chars r_str +:+ out))
                  EmptyString pieces
    end.
Proof.
  unfold paragraph_text, append_text. cbn [content].
  destruct (split_breaks s) as [|r_str pieces]; [done |].
  apply append_pieces_first.
Qed.

Lemma read_char_break (lf : ascii) (c : ascii) :
  Ascii.eqb c LF || Ascii.eqb c VT = false →
  read_char lf c = (if is_ctrl_char c then escape_char c else String c EmptyString).
Proof.
  intros H. apply orb_false_iff in H as [H1 H2]. unfold read_char. by rewrite H1, H2.
Qed.

(** The text of a paragraph: line feeds and vertical tabs are line breaks
    and read as vertical tabs, control characters read escaped. *)
Lemma paragraph_text_of_text (s : string) (n : Z) :
  paragraph_text (mkParagraph (append_text s) n) = bullet_text s.
Proof.
  rewrite paragraph_text_pieces. unfold bullet_text.
  induction s as [|c s IH]; [done |].
  cbn [split_breaks read_back].
  destruct (Ascii.eqb c LF || Ascii.eqb c VT) eqn:Hc.
  - assert (read_char VT c = String VT EmptyString) as ->.
    { unfold read_char. destruct (Ascii.eqb c LF); [done |].
      cbn in Hc. by rewrite Hc. }
    cbn [escape_ctrl_chars]. rewrite append_nil, append_cons, append_nil.
    destruct (split_breaks s) as [|r_str pieces] eqn:Hs.
    { by destruct (split_breaks_nonempty s). }
    cbn [foldr]. by rewrite IH.
  - rewrite (read_char_break _ _ Hc).
    destruct (split_breaks s) as [|r_str pieces] eqn:Hs.
    { by destruct (split_breaks_nonempty s). }
    rewrite <- IH. cbn [escape_ctrl_chars].
    destruct (is_ctrl_char c); by rewrite ?append_assoc.
Qed.

Lemma read_char_no_line_feed (c : ascii) :
  Ascii.eqb c LF = false → read_char VT c = read_char LF c.
Proof. intros H. unfold read_char. by rewrite H. Qed.

Lemma join_lines_cons (x : string) (l : list string) :
  join_lines (x :: l)
  = x +:+ match l with [] => EmptyString | _ => String LF (join_lines l) end.
Proof. destruct l; cbn [join_lines]; [by rewrite append_empty_r | done]. Qed.

(** The text of a shape or cell: the lines are paragraphs and read with
    line feeds between them. *)
Lemma text_frame_text_of_text (s : string) :
  text_frame_text (frame_of_text s) = shape_text s.
Proof.
  unfold text_frame_text, frame_of_text, shape_text.
  rewrite <- list_fmap_compose.
  rewrite (list_fmap_ext _ bullet_text (split_lines s))
    by (intros _ line _; apply paragraph_text_of_text).
  unfold bullet_text.
  induction s as [|c s IH]; [done |].
  cbn [split_lines read_back].
  destruct (Ascii.eqb c LF) eqn:Hc.
  - assert (read_char LF c = String LF EmptyString) as ->
      by (unfold read_char; by rewrite Hc).
    cbn [fmap list_fmap]. rewrite join_lines_cons. cbn [read_back].
    rewrite append_nil, append_cons, append_nil.
    destruct (split_lines s) as [|h t] eqn:Hs.
    { by destruct (split_lines_nonempty s). }
    by rewrite <- IH.
  - destruct (split_lines s) as [|h t] eqn:Hs.
    { by destruct (split_lines_nonempty s). }
    rewrite <- IH. cbn [fmap list_fmap]. rewrite !join_lines_cons.
    cbn [read_back]. rewrite (read_char_no_line_feed _ Hc).
    by rewrite append_assoc.
Qed.

Lemma set_text_run (s : string) (tf : TextFrame) :
  set_text s tf = (Ok tt, frame_of_text s).
Proof. reflexivity. Qed.

(** A plain text reads back as it is. *)
Lemma read_back_plain (lf : ascii) (s : string) :
  plain s = true → read_back lf s = s.
Proof.
  unfold plain. induction s as [|c s IH]; [done |].
  cbn [list_ascii_of_string forallb read_back].
  intros [Hc Hs]%andb_true_iff. rewrite (IH Hs).
  assert (read_char lf c = String c EmptyString) as ->; [| done].
  unfold read_char, is_ctrl_char, LF, VT.
  destruct (Ascii.eqb c "010") eqn:H1.
  { apply Ascii.eqb_eq in H1 as ->. done. }
  destruct (Ascii.eqb c "011") eqn:H2.
  { apply Ascii.eqb_eq in H2 as ->. done. }
  destruct (nat_of_ascii c <=? 8) eqn:H3.
  { apply Nat.leb_le in H3. apply orb_true_iff in Hc as [Hc|Hc];
      [apply Nat.leb_le in Hc | apply Nat.eqb_eq in Hc]; lia. }
  destruct (11 <=? nat_of_ascii c) eqn:H4; [| done].
  destruct (nat_of_ascii c <=? 31) eqn:H5; [| done].
  apply Nat.leb_le in H4, H5. apply orb_true_iff in Hc as [Hc|Hc];
    [apply Nat.leb_le in Hc | apply Nat.eqb_eq in Hc]; lia.
Qed.

(** ** Bullets *)

Lemma bullets_of_paragraphs (bs : list (Z * string)) :
  bullets (bullet_paragraph <$> bs) = (λ b, (b.1, bullet_text b.2)) <$> bs.
Proof.
  unfold bullets. rewrite <- list_fmap_compose. apply list_fmap_ext.
  intros i [l t] _. unfold compose, bullet_paragraph. cbn [fst snd level].
  by rewrite paragraph_text_of_text.
Qed.

(** One bullet on the paragraph [p]: the text is assigned, then the level. *)
Lemma bullet_on_paragraph (b : Z * string) (p : Paragraph) :
  (set_paragraph_text b.2 ;; set_paragraph_level b.1) p
  = if decide (level_ok b) then (Ok tt, bullet_paragraph b)
    else (Raise ValueError, mkParagraph (append_text b.2) (level p)).
Proof.
  destruct b as [l t]. unfold level_ok, bullet_paragraph. cbn [fst snd].
  unfold bind, set_paragraph_text, modify, set_paragraph_level. cbn [content level].
  by destruct (decide (0 ≤ l ≤ 8)%Z).
Qed.

Lemma bullet_step_later (b : Z * string) (k : nat) (tf : TextFrame) :
  (p <- add_paragraph ;;
   on_paragraph p (set_paragraph_text b.2 ;; set_paragraph_level b.1)) tf
  = if decide (level_ok b) then (Ok tt, tf ++ [bullet_paragraph b])
    else (Raise ValueError, tf ++ [mkParagraph (append_text b.2) 0]).
Proof.
  unfold bind at 1. unfold add_paragraph at 1. unfold on_paragraph.
  rewrite (zoom_some _ _ _ _ _ empty_paragraph).
  2:{ rewrite lookup_app_r by lia. by rewrite Nat.sub_diag. }
  rewrite bullet_on_paragraph.
  rewrite insert_app_r_alt by lia. rewrite Nat.sub_diag.
  by destruct (decide (level_ok b)).
Qed.

Lemma bullet_loop_cons (b : Z * string) (bs : list (Z * string)) (k : nat)
    (tf : TextFrame) :
  bullet_loop (b :: bs) k tf
  = bind (p <- (if decide (k = 0) then paragraph_at 0 else add_paragraph) ;;
          on_paragraph p (set_paragraph_text b.2 ;; set_paragraph_level b.1))
         (λ _, bullet_loop bs (S k)) tf.
Proof. by destruct b. Qed.

Lemma bullet_loop_rest (bs : list (Z * string)) (k : nat) (tf : TextFrame) :
  Forall level_ok bs →
  bullet_loop bs (S k) tf = (Ok tt, tf ++ (bullet_paragraph <$> bs)).
Proof.
  revert k tf. induction bs as [|b bs IH]; intros k tf Hbs.
  - cbn. by rewrite app_nil_r.
  - apply Forall_cons in Hbs as [Hb Hbs].
    rewrite bullet_loop_cons. rewrite decide_False by lia.
    erewrite bind_ok; [| rewrite (bullet_step_later b k); by rewrite decide_True].
    rewrite IH by done. cbn [fmap list_fmap]. by rewrite <- app_assoc.
Qed.

Lemma bullet_loop_rest_raise (bs : list (Z * string)) (k : nat) (tf : TextFrame) :
  Exists (λ b, ¬ level_ok b) bs →
  (bullet_loop bs (S k) tf).1 = Raise ValueError.
Proof.
  revert k tf. induction bs as [|b bs IH]; intros k tf Hbs; [by inversion Hbs |].
  rewrite bullet_loop_cons. rewrite decide_False by lia.
  unfold bind at 1. rewrite (bullet_step_later b k).
  destruct (decide (level_ok b)) as [Hb|Hb]; [| done].
  apply IH. apply Exists_cons in Hbs as [?|?]; done.
Qed.

Lemma bullet_step_first (b : Z * string) (p : Paragraph) :
  (p0 <- paragraph_at 0 ;;
   on_paragraph p0 (set_paragraph_text b.2 ;; set_paragraph_level b.1)) [p]
  = if decide (level_ok b) then (Ok tt, [bullet_paragraph b])
    else (Raise ValueError, [mkParagraph (append_text b.2) (level p)]).
Proof.
  unfold bind at 1. unfold paragraph_at at 1. cbn [length]. rewrite decide_True by lia.
  unfold on_paragraph. rewrite (zoom_some _ _ _ _ _ p) by done.
  rewrite bullet_on_paragraph. by destruct (decide (level_ok b)).
Qed.

Lemma bullet_loop_first (bs : list (Z * string)) (p : Paragraph) :
  Forall level_ok bs →
  bullet_loop bs 0 [p] = (Ok tt, match bs with
                                 | [] => [p]
                                 | _ => bullet_paragraph <$> bs
                                 end).
Proof.
  destruct bs as [|b bs]; [done |]. intros [Hb Hbs]%Forall_cons.
  rewrite bullet_loop_cons. rewrite decide_True by done.
  erewrite bind_ok; [| rewrite (bullet_step_first b p); by rewrite decide_True].
  by rewrite bullet_loop_rest.
Qed.

Lemma bullet_loop_first_raise (bs : list (Z * string)) (p : Paragraph) :
  Exists (λ b, ¬ level_ok b) bs → (bullet_loop bs 0 [p]).1 = Raise ValueError.
Proof.
  destruct bs as [|b bs]; [by inversion 1 |]. intros Hbs.
  rewrite bullet_loop_cons. rewrite decide_True by done.
  unfold bind at 1. rewrite (bullet_step_first b p).
  destruct (decide (level_ok b)) as [Hb|Hb]; [| done].
  apply bullet_loop_rest_raise. apply Exists_cons in Hbs as [?|?]; done.
Qed.

Lemma content_slide_body_title title bullet_points :
  content_slide_body title bullet_points (new_slide TitleAndContent)
  = (if truthy bullet_points then
       on_placeholder 1 (clear ;; bullet_loop (default [] bullet_points) 0)
     else ret tt)
      (mkSlide TitleAndContent (Some (frame_of_text title)) (Some empty_text_frame) []).
Proof. reflexivity. Qed.

Lemma content_slide_body_run title bullet_points :
  Forall level_ok (default [] bullet_points) →
  content_slide_body title bullet_points (new_slide TitleAndContent)
  = (Ok tt,
     mkSlide TitleAndContent (Some (frame_of_text title))
       (match bullet_points with
        | Some (b :: bs) => Some (bullet_paragraph <$> (b :: bs))
        | _ => Some empty_text_frame
        end) []).
Proof.
  intros Hlevels. rewrite content_slide_body_title.
  destruct bullet_points as [[|b bs]|]; try reflexivity.
  change (truthy (Some (b :: bs))) with true. cbv iota.
  change (default [] (Some (b :: bs))) with (b :: bs) in *.
  unfold on_placeholder.
  rewrite (zoom_some _ _ _ _ _ empty_text_frame) by reflexivity.
  rewrite (bind_ok _ _ empty_text_frame tt [mkParagraph [] 0%Z]) by reflexivity.
  rewrite bullet_loop_first by done. reflexivity.
Qed.

Lemma content_slide_body_raise title bullet_points :
  Exists (λ b, ¬ level_ok b) (default [] bullet_points) →
  (content_slide_body title bullet_points (new_slide TitleAndContent)).1
  = Raise ValueError.
Proof.
  intros Hlevels. rewrite content_slide_body_title.
  destruct bullet_points as [[|b bs]|]; try by inversion Hlevels.
  change (truthy (Some (b :: bs))) with true. cbv iota.
  change (default [] (Some (b :: bs))) with (b :: bs) in *.
  unfold on_placeholder.
  rewrite (zoom_some _ _ _ _ _ empty_text_frame) by reflexivity.
  rewrite (bind_ok _ _ empty_text_frame tt [mkParagraph [] 0%Z]) by reflexivity.
  cbn [fst]. by apply bullet_loop_first_raise.
Qed.

Lemma title_slide_body_run title subtitle :
  title_slide_body title subtitle (new_slide TitleSlide)
  = (Ok tt,
     mkSlide TitleSlide (Some (frame_of_text title)) (Some (frame_of_text subtitle)) []).
Proof. reflexivity. Qed.

(** ** Cells *)

Lemma forallb_Forall {A} (f : A → bool) (l : list A) :
  forallb f l = true ↔ Forall (λ x, f x = true) l.
Proof.
  induction l as [|x l IH]; simpl.
  - split; [constructor | done].
  - rewrite andb_true_iff, IH, Forall_cons. done.
Qed.

Lemma forallb_fmap {A B} (P : B → bool) (f : A → B) (l : list A) :
  forallb P (f <$> l) = forallb (λ x, P (f x)) l.
Proof. induction l as [|x l IH]; [done |]. cbn. by rewrite <- IH. Qed.

Lemma forallb_ext' {A} (P Q : A → bool) (l : list A) :
  (∀ x, P x = Q x) → forallb P l = forallb Q l.
Proof. intros H. induction l as [|x l IH]; [done |]. cbn. by rewrite H, IH. Qed.

(** The runs of a paragraph whose fonts are changed. *)
Lemma runs_map_fonts (body : Font → Font) (p : Paragraph) :
  runs (map_fonts body p) = (λ r, mkRun (run_text r) (body (run_font r))) <$> runs p.
Proof.
  unfold runs, map_fonts. cbn [content].
  induction (content p) as [|[r|] l IH]; [done | |]; cbn; by rewrite ?IH.
Qed.

(** The runs of an assigned text have the default font. *)
Lemma runs_append_pieces (idx : nat) (pieces : list string) (n : Z) (r : Run) :
  r ∈ runs (mkParagraph (append_pieces idx pieces) n) → run_font r = default_font.
Proof.
  unfold runs. cbn [content]. revert idx.
  induction pieces as [|r_str pieces IH]; intros idx; [by intros ?%elem_of_nil |].
  cbn [append_pieces]. rewrite !omap_app. rewrite !elem_of_app.
  intros [H|[H|H]].
  - destruct (decide (0 < idx)); cbn in H; by apply elem_of_nil in H.
  - destruct (decide (r_str = EmptyString)); cbn in H; [by apply elem_of_nil in H |].
    by apply list_elem_of_singleton in H as ->.
  - by eapply IH.
Qed.

Lemma runs_frame_of_text (x : string) (p : Paragraph) (r : Run) :
  p ∈ frame_of_text x → r ∈ runs p → run_font r = default_font.
Proof.
  unfold frame_of_text. intros (line & -> & _)%list_elem_of_fmap.
  apply runs_append_pieces.
Qed.

Lemma all_runs_for_each_run (P : Run → bool) (f : Font → Font) (c : Cell) :
  all_runs P (for_each_run f c).2
  = all_runs (λ r, P (mkRun (run_text r) (f (run_font r)))) c.
Proof.
  unfold all_runs, for_each_run, modify. cbn [snd cell_text_frame].
  rewrite forallb_fmap. apply forallb_ext'. intros p.
  rewrite runs_map_fonts. apply forallb_fmap.
Qed.

Lemma all_runs_fresh (P : Run → bool) (s : string) (fl : Fill) :
  (∀ t, P (mkRun t default_font) = true) →
  all_runs P (mkCell (frame_of_text s) fl) = true.
Proof.
  intros HP. unfold all_runs. cbn [cell_text_frame].
  apply forallb_Forall, Forall_forall. intros p Hp.
  apply forallb_Forall, Forall_forall. intros r Hr.
  pose proof (runs_frame_of_text s p r Hp Hr) as Hfont.
  destruct r as [t f]. cbn in Hfont. subst f. apply HP.
Qed.

Lemma format_cell_run (i : nat) (x : string) (c : Cell) :
  ∃ c', format_cell i x c = (Ok tt, c')
    ∧ (i = 0 → header_cell c' = true)
    ∧ (i ≠ 0 → filled c = false → data_cell c' = true).
Proof.
  unfold format_cell.
  set (tf := frame_of_text (str x)).
  assert (set_cell_text (str x) c = (Ok tt, mkCell tf (cell_fill c))) as Hset by done.
  rewrite (bind_ok _ _ _ _ _ Hset).
  destruct (decide (i = 0)) as [Hi|Hi].
  - set (c1 := mkCell tf (SolidFill (Some header_fill))).
    exists (for_each_run (λ _, mkFont (Some true) (Some (Pt 12)) (Some white)) c1).2.
    split; [| split; [intros _ | done]].
    + erewrite bind_ok; [| reflexivity].
      erewrite bind_ok; [reflexivity |].
      unfold set_fore_color, fill_solid, modify. simpl. by destruct (cell_fill c).
    + unfold header_cell. rewrite all_runs_for_each_run.
      unfold c1 at 1. simpl. by apply all_runs_fresh.
  - exists (for_each_run (λ f, mkFont (font_bold f) (Some (Pt 11)) (font_color f))
              (mkCell tf (cell_fill c))).2.
    split; [reflexivity | split; [done | intros _ Hf]].
    unfold data_cell. rewrite all_runs_for_each_run.
    subst tf. rewrite all_runs_fresh by done.
    unfold filled in *. simpl. by destruct (cell_fill c).
Qed.

(** [on_cell]: the cell exists, or the access raises and nothing changes *)
Lemma on_cell_run {A} (i j : nat) (m : M Cell A) (t : Table) :
  (∃ row c, tbl_rows t !! i = Some row ∧ row !! j = Some c
     ∧ on_cell i j m t
       = ((m c).1,
          mkTable (tbl_left t) (tbl_top t) (tbl_width t) (tbl_height t)
            (tbl_columns t) (alter (λ row, <[j := (m c).2]> row) i (tbl_rows t))))
  ∨ ((∀ row, tbl_rows t !! i = Some row → length row ≤ j)
     ∧ on_cell i j m t = (Raise IndexError, t)).
Proof.
  unfold on_cell, zoom.
  destruct (tbl_rows t !! i) as [row|] eqn:Hrow; simpl.
  - destruct (row !! j) as [c|] eqn:Hc.
    + left. exists row, c. repeat split; try done. by destruct (m c).
    + right. split; [| done]. intros ? [= <-]. by apply lookup_ge_None.
  - right. split; [done | done].
Qed.

(** ** Loops, column widths and rows *)

Section loops.
Context {St A : Type} (body : nat → A → M St unit).

Lemma for_from_cons (k : nat) (x : A) (l : list A) (s : St) :
  for_from k (x :: l) body s = bind (body k x) (λ _, for_from (S k) l body) s.
Proof. reflexivity. Qed.

(** An invariant every iteration keeps, whether it returns or raises. *)
Lemma for_from_preserves (I : St → Prop) (l : list A) (k : nat) (s : St) :
  (∀ j x s, k ≤ j → x ∈ l → I s → I (body j x s).2) →
  I s → I (for_from k l body s).2.
Proof.
  revert k s. induction l as [|x l IH]; intros k s Hbody Hs; [done |].
  rewrite for_from_cons. unfold bind.
  pose proof (Hbody k x s (le_n k) (list_elem_of_here x l) Hs) as H1.
  destruct (body k x s) as [[[]|e] s1]; simpl in *; [| done].
  apply IH; [| done].
  intros j y s' Hj Hy. apply Hbody; [lia | by apply list_elem_of_further].
Qed.

(** Iterations that return under an invariant indexed by the position. *)
Lemma for_from_total (I : nat → St → Prop) (l : list A) (k : nat) (s : St) :
  (∀ i x s, l !! i = Some x → I (k + i) s →
     (body (k + i) x s).1 = Ok tt ∧ I (S (k + i)) (body (k + i) x s).2) →
  I k s →
  (for_from k l body s).1 = Ok tt ∧ I (k + length l) (for_from k l body s).2.
Proof.
  revert k s. induction l as [|x l IH]; intros k s Hbody Hs.
  - simpl. by rewrite Nat.add_0_r.
  - rewrite for_from_cons. unfold bind.
    destruct (Hbody 0 x s) as [H1 H2]; [done | by rewrite Nat.add_0_r |].
    rewrite Nat.add_0_r in H1, H2.
    destruct (body k x s) as [r s1]; simpl in *. subst r.
    replace (k + S (length l)) with (S k + length l) by lia.
    apply IH; [| done].
    intros i y s' Hy Hs'.
    replace (S k + i) with (k + S i) in * by lia.
    by apply Hbody.
Qed.

(** Iterations that return under the invariant or raise an exception of
    the kind [R]. *)
Lemma for_from_cases (I : nat → St → Prop) (R : Exn → Prop) (l : list A) (k : nat)
    (s : St) :
  (∀ i x s, l !! i = Some x → I (k + i) s →
     match (body (k + i) x s).1 with
     | Ok _ => I (S (k + i)) (body (k + i) x s).2
     | Raise e => R e
     end) →
  I k s →
  match (for_from k l body s).1 with
  | Ok _ => I (k + length l) (for_from k l body s).2
  | Raise e => R e
  end.
Proof.
  revert k s. induction l as [|x l IH]; intros k s Hbody Hs.
  - simpl. by rewrite Nat.add_0_r.
  - rewrite for_from_cons. unfold bind.
    pose proof (Hbody 0 x s eq_refl) as H1. rewrite Nat.add_0_r in H1.
    specialize (H1 Hs).
    destruct (body k x s) as [[[]|e] s1]; simpl in *; [| done].
    replace (k + S (length l)) with (S k + length l) by lia.
    apply IH; [| done].
    intros i y s' Hy Hs'.
    replace (S k + i) with (k + S i) in * by lia.
    by apply Hbody.
Qed.
End loops.

(** *** Sums and the grid of a new table *)

Lemma sum_list_app (l1 l2 : list Z) :
  sum_list (l1 ++ l2) = (sum_list l1 + sum_list l2)%Z.
Proof. induction l1 as [|x l1 IH]; cbn; [done |]. unfold sum_list in *. lia. Qed.

Lemma sum_list_replicate (n : nat) (x : Z) :
  sum_list (replicate n x) = (Z.of_nat n * x)%Z.
Proof. induction n as [|n IH]; cbn -[Z.of_nat]; [lia |]. unfold sum_list in *. lia. Qed.

Lemma sum_list_nonneg (l : list Z) : Forall (λ x, (0 ≤ x)%Z) l → (0 ≤ sum_list l)%Z.
Proof. induction 1; cbn; [lia |]. unfold sum_list in *. lia. Qed.

Lemma sum_list_drop (n : nat) (l : list Z) :
  Forall (λ x, (0 ≤ x)%Z) l → (0 ≤ sum_list (drop n l) ≤ sum_list l)%Z.
Proof.
  intros Hl. rewrite <- (take_drop n l) at 3. rewrite sum_list_app.
  pose proof (sum_list_nonneg (take n l) ltac:(by apply Forall_take)).
  pose proof (sum_list_nonneg (drop n l) ltac:(by apply Forall_drop)). lia.
Qed.

Lemma fmap_seq_const {B} (f : nat → B) (c : B) (n k : nat) :
  (∀ i, k ≤ i < k + n → f i = c) → f <$> seq k n = replicate n c.
Proof.
  revert k. induction n as [|n IH]; intros k Hf; [done |].
  cbn. rewrite Hf by lia. f_equal. apply IH. intros i Hi. apply Hf. lia.
Qed.

Lemma new_columns_eq (n : nat) (width colwidth : Z) :
  new_columns (S n) width colwidth
  = replicate n colwidth ++ [(width - Z.of_nat n * colwidth)%Z].
Proof.
  unfold new_columns. rewrite seq_S, fmap_app. cbn [fmap list_fmap Nat.add].
  replace (S n - 1) with n by lia. rewrite decide_True by done.
  f_equal; [| f_equal; f_equal; lia].
  apply fmap_seq_const. intros i Hi. by rewrite decide_False by lia.
Qed.

Lemma new_columns_length (cols : nat) (width colwidth : Z) :
  length (new_columns cols width colwidth) = cols.
Proof. unfold new_columns. by rewrite length_fmap, length_seq. Qed.

(** The columns of a new table are not negative and add up to its width. *)
Lemma new_columns_sum (cols : nat) :
  0 < cols →
  Forall (λ x, (0 ≤ x)%Z) (new_columns cols table_width (table_width / Z.of_nat cols))
  ∧ sum_list (new_columns cols table_width (table_width / Z.of_nat cols)) = table_width.
Proof.
  intros Hcols. destruct cols as [|n]; [lia |]. rewrite new_columns_eq.
  set (colwidth := (table_width / Z.of_nat (S n))%Z).
  assert (0 ≤ colwidth)%Z as H0 by (apply Z.div_pos; [done | lia]).
  assert (Z.of_nat (S n) * colwidth ≤ table_width)%Z as H1
    by (apply Z.mul_div_le; lia).
  split.
  - apply Forall_app. split; [by apply Forall_replicate |].
    apply Forall_singleton. lia.
  - rewrite sum_list_app, sum_list_replicate. cbn. lia.
Qed.

(** *** Column widths *)

Lemma set_columns_id (t : Table) : set_columns (tbl_columns t) t = t.
Proof. by destruct t. Qed.

Lemma set_rows_id (t : Table) : set_rows (tbl_rows t) t = t.
Proof. by destruct t. Qed.

(** [table.columns[i].width = w], case by case. *)
Lemma set_column_width_run (i : nat) (w : Z) (t : Table) :
  set_column_width i w t
  = if decide (i < length (tbl_columns t)) then
      if decide (coordinate w) then
        let columns := <[i := w]> (tbl_columns t) in
        if decide (positive_coordinate (sum_list columns))
        then (Ok tt, set_width (sum_list columns) (set_columns columns t))
        else (Raise ValueError, set_columns columns t)
      else (Raise ValueError, t)
    else (Raise IndexError, t).
Proof.
  unfold set_column_width, bind, zoom.
  destruct (decide (i < length (tbl_columns t))) as [Hi|Hi].
  - destruct (lookup_lt_is_Some_2 _ _ Hi) as [x Hx]. rewrite Hx.
    destruct (decide (coordinate w)); [done |].
    by rewrite list_insert_id, set_columns_id.
  - rewrite (proj2 (lookup_ge_None _ _)) by lia. done.
Qed.

(** One iteration of the loop over [col_widths]. *)
Lemma width_step_run (i : nat) (width : float) (t : Table) :
  (w <- eval (Inches width) ;; set_column_width i w) t
  = match Inches width with
    | Ok w => set_column_width i w t
    | Raise e => (Raise e, t)
    end.
Proof. unfold bind, eval. by destruct (Inches width). Qed.

Lemma Inches_no_index_error (width : float) : Inches width ≠ Raise IndexError.
Proof. unfold Inches, int_of_float. by destruct (Prim2SF _). Qed.

(** Whatever the outcome, an iteration changes neither the cells nor the
    number of columns, and does not run into the index error when the column
    exists. *)
Lemma width_step_frame (i : nat) (width : float) (t : Table) :
  let r := (w <- eval (Inches width) ;; set_column_width i w) t in
  tbl_rows r.2 = tbl_rows t
  ∧ length (tbl_columns r.2) = length (tbl_columns t)
  ∧ (i < length (tbl_columns t) → r.1 ≠ Raise IndexError)
  ∧ (length (tbl_columns t) ≤ i → ∃ e, r.1 = Raise e).
Proof.
  cbv zeta. rewrite width_step_run.
  pose proof (Inches_no_index_error width) as Hwidth.
  destruct (Inches width) as [w|e].
  2:{ cbn. repeat split; [by intros _ [= ->] | by eexists]. }
  rewrite set_column_width_run.
  destruct (decide (i < length (tbl_columns t))) as [Hi|Hi].
  - destruct (decide (coordinate w)).
    + cbv zeta. destruct (decide (positive_coordinate _)); cbn;
        rewrite length_insert; repeat split; try done; lia.
    + cbn. repeat split; try done; lia.
  - cbn. repeat split; [lia | by eexists].
Qed.

Lemma width_loop_frame (col_widths : list float) (k : nat) (t : Table) :
  tbl_rows (width_loop col_widths k t).2 = tbl_rows t
  ∧ length (tbl_columns (width_loop col_widths k t).2) = length (tbl_columns t).
Proof.
  apply (for_from_preserves _
           (λ t', tbl_rows t' = tbl_rows t
                  ∧ length (tbl_columns t') = length (tbl_columns t))); [| done].
  intros j width t' _ _ [Hrows Hcols].
  destruct (width_step_frame j width t') as (H1 & H2 & _). cbv zeta in *.
  by rewrite H1, H2.
Qed.

(** With no more widths than columns the loop does not run into the index
    error. *)
Lemma width_loop_no_index_error (col_widths : list float) (t : Table) :
  length col_widths ≤ length (tbl_columns t) →
  (width_loop col_widths 0 t).1 ≠ Raise IndexError.
Proof.
  intros Hfit Hraise.
  pose proof (for_from_cases
                (λ i width, w <- eval (Inches width) ;; set_column_width i w)
                (λ _ t', length (tbl_columns t') = length (tbl_columns t))
                (λ e, e ≠ IndexError) col_widths 0 t) as H.
  unfold width_loop in Hraise. rewrite Hraise in H. apply H; [| done | done].
  intros i width t' Hw Ht'. apply lookup_lt_Some in Hw.
  destruct (width_step_frame (0 + i) width t') as (_ & H2 & H3 & _). cbv zeta in *.
  destruct ((w <- eval (Inches width) ;; set_column_width (0 + i) w) t')
    as [[[]|e] t1]; cbn [fst snd] in *.
  - by rewrite H2.
  - intros ->. apply H3; [cbn; lia | done].
Qed.

(** More widths than columns: the loop raises. *)
Lemma width_loop_overflow (col_widths : list float) :
  ∀ (k : nat) (t : Table),
    k ≤ length (tbl_columns t) → length (tbl_columns t) < k + length col_widths →
    ∃ e, (width_loop col_widths k t).1 = Raise e.
Proof.
  induction col_widths as [|width ws IH]; intros k t Hk Hover; [cbn in Hover; lia |].
  unfold width_loop in *. rewrite for_from_cons. unfold bind at 1.
  destruct (width_step_frame k width t) as (_ & H2 & _ & H4). cbv zeta in *.
  destruct ((w <- eval (Inches width) ;; set_column_width k w) t)
    as [[[]|e] t1]; [| by eexists]. cbn [fst snd] in *.
  destruct (decide (k < length (tbl_columns t))) as [Hlt|Hge].
  - apply IH; cbn in Hover; lia.
  - destruct H4 as [e He]; [lia | done].
Qed.

Lemma emu_widths_cons (width : float) (rest : list float) (ws : list Z) :
  emu_widths (width :: rest) = Some ws →
  ∃ w ws', ws = w :: ws' ∧ Inches width = Ok w ∧ emu_widths rest = Some ws'.
Proof.
  cbn. destruct (Inches width) as [w|]; [| done].
  destruct (emu_widths rest) as [ws'|]; [| done].
  intros [= <-]. by eexists _, _.
Qed.

Lemma emu_widths_length (col_widths : list float) (ws : list Z) :
  emu_widths col_widths = Some ws → length ws = length col_widths.
Proof.
  revert ws. induction col_widths as [|width rest IH]; intros ws.
  - by intros [= <-].
  - intros (w & ws' & -> & _ & Hrest)%emu_widths_cons. cbn. by rewrite (IH ws').
Qed.

Lemma emu_widths_lookup (col_widths : list float) (ws : list Z) (i : nat)
    (width : float) :
  emu_widths col_widths = Some ws → col_widths !! i = Some width →
  ∃ w, Inches width = Ok w ∧ ws !! i = Some w.
Proof.
  revert ws i. induction col_widths as [|x rest IH]; intros ws i; [done |].
  intros (w & ws' & -> & Hx & Hrest)%emu_widths_cons.
  destruct i as [|i]; cbn.
  - intros [= <-]. by exists w.
  - by apply IH.
Qed.

(** Widths the library accepts are set one after the other; a width too many
    runs into the index error. *)
Lemma width_loop_exact (col_widths : list float) :
  ∀ (ws : list Z) (k : nat) (t : Table) (pre rest : list Z),
    emu_widths col_widths = Some ws →
    tbl_columns t = pre ++ rest → length pre = k →
    tbl_width t = sum_list (tbl_columns t) →
    Forall (λ w, (0 ≤ w)%Z) ws → Forall (λ w, (0 ≤ w)%Z) pre →
    Forall (λ w, (0 ≤ w)%Z) rest →
    (sum_list pre + sum_list ws + sum_list rest ≤ 27273042316900)%Z →
    width_loop col_widths k t
    = if decide (length ws ≤ length rest) then
        let columns := pre ++ with_widths ws rest in
        (Ok tt, set_width (sum_list columns) (set_columns columns t))
      else
        let columns := pre ++ take (length rest) ws in
        (Raise IndexError, set_width (sum_list columns) (set_columns columns t)).
Proof.
  induction col_widths as [|width col_widths IH];
    intros ws k t pre rest Hws Hcols Hk Hwidth Hws0 Hpre0 Hrest0 Hsum.
  - injection Hws as <-. cbn [length]. rewrite decide_True by lia.
    unfold with_widths. cbn [app length]. rewrite drop_0, <- Hcols, <- Hwidth.
    cbv zeta. rewrite set_columns_id. by destruct t.
  - apply emu_widths_cons in Hws as (w & ws' & -> & Hw & Hws').
    apply Forall_cons in Hws0 as [Hw0 Hws0].
    unfold width_loop in *. rewrite for_from_cons. unfold bind at 1.
    rewrite width_step_run, Hw, set_column_width_run, Hcols.
    cbn [sum_list foldr length] in *.
    change (foldr Z.add 0%Z ws') with (sum_list ws') in *.
    destruct rest as [|c rest].
    + rewrite decide_False by (rewrite length_app; cbn; lia).
      rewrite decide_False by (cbn; lia). cbn [take length]. cbv zeta.
      rewrite <- Hcols, <- Hwidth, set_columns_id. by destruct t.
    + apply Forall_cons in Hrest0 as [Hc0 Hrest0].
      pose proof (sum_list_nonneg _ Hpre0). pose proof (sum_list_nonneg _ Hws0).
      pose proof (sum_list_nonneg _ Hrest0).
      cbn [sum_list foldr] in Hsum. change (foldr Z.add 0%Z rest) with (sum_list rest) in *.
      rewrite decide_True by (rewrite length_app; cbn; lia).
      rewrite decide_True by (unfold coordinate; lia).
      cbv zeta. rewrite insert_app_r_alt by lia.
      replace (k - length pre) with 0 by lia. cbn [insert list_insert].
      rewrite decide_True.
      2:{ unfold positive_coordinate. rewrite sum_list_app. cbn [sum_list foldr].
          change (foldr Z.add 0%Z rest) with (sum_list rest). lia. }
      cbv iota beta.
      rewrite (IH ws' (S k) _ (pre ++ [w]) rest); try done.
      * cbn [length]. unfold with_widths. cbn [length drop app take].
        destruct (decide (length ws' ≤ length rest));
          [rewrite decide_True by lia | rewrite decide_False by lia];
          cbv zeta; rewrite <- !app_assoc; by cbn.
      * cbn. by rewrite <- app_assoc.
      * rewrite length_app. cbn. lia.
      * apply Forall_app. split; [done |]. by apply Forall_singleton.
      * rewrite sum_list_app. cbn [sum_list foldr]. lia.
Qed.

(** *** Filling the cells *)

Lemma on_cell_format (i j : nat) (x : string) (t : Table) :
  (∃ row c c', tbl_rows t !! i = Some row ∧ row !! j = Some c
     ∧ (i = 0 → header_cell c' = true)
     ∧ (i ≠ 0 → filled c = false → data_cell c' = true)
     ∧ on_cell i j (format_cell i x) t
       = (Ok tt,
          mkTable (tbl_left t) (tbl_top t) (tbl_width t) (tbl_height t)
            (tbl_columns t) (alter (λ row, <[j := c']> row) i (tbl_rows t))))
  ∨ ((∀ row, tbl_rows t !! i = Some row → length row ≤ j)
     ∧ on_cell i j (format_cell i x) t = (Raise IndexError, t)).
Proof.
  destruct (on_cell_run i j (format_cell i x) t)
    as [(row & c & Hrow & Hc & Hrun)|H]; [left | by right].
  destruct (format_cell_run i x c) as (c' & Hfmt & Hh & Hd).
  exists row, c, c'. rewrite Hfmt in Hrun. done.
Qed.

(** A row of the table is filled without an index error when it fits. *)
Lemma fill_row_ok (rows cols i : nat) (row : list string) (t : Table) :
  table_shape rows cols t → i < rows → length row ≤ cols →
  (fill_row i row 0 t).1 = Ok tt ∧ table_shape rows cols (fill_row i row 0 t).2.
Proof.
  intros Ht Hi Hrow.
  destruct (for_from_total
              (λ j cell_text, on_cell i j (format_cell i cell_text))
              (λ _ t', table_shape rows cols t') row 0 t) as [H1 H2];
    [| done | done].
  intros j x t' Hx (Hc & Hr & Hall). apply lookup_lt_Some in Hx.
  destruct (lookup_lt_is_Some_2 (tbl_rows t') i) as [r Hri]; [lia |].
  pose proof (Forall_lookup_1 _ _ _ _ Hall Hri) as Hlen. simpl in Hlen.
  destruct (on_cell_format i (0 + j) x t')
    as [(row' & c & c' & Hrow' & _ & _ & _ & ->)|[Hge _]].
  - simpl. split; [done |]. unfold table_shape. simpl.
    repeat split; [done | by rewrite length_alter |].
    apply Forall_alter; [done |]. intros. by rewrite length_insert.
  - specialize (Hge r Hri). simpl in *. lia.
Qed.

(** ** The table of a table slide *)

Lemma fill_rows_ok (rows cols : nat) (data : list (list string)) (t : Table) :
  table_shape rows cols t → length data ≤ rows →
  Forall (λ row, length row ≤ cols) data →
  (fill_rows data 0 t).1 = Ok tt ∧ table_shape rows cols (fill_rows data 0 t).2.
Proof.
  intros Ht Hrows Hdata.
  destruct (for_from_total
              (λ i row, fill_row i row 0)
              (λ _ t', table_shape rows cols t') data 0 t) as [H1 H2];
    [| done | done].
  intros i row t' Hrow Ht'.
  apply fill_row_ok; [done | |].
  - apply lookup_lt_Some in Hrow. simpl. lia.
  - by apply (Forall_lookup_1 _ _ _ _ Hdata Hrow).
Qed.

Lemma header_distinguished_iff (t : Table) :
  header_distinguished t = true
  ↔ ∃ row0 data_rows, tbl_rows t = row0 :: data_rows
      ∧ Forall (λ c, header_cell c = true) row0
      ∧ Forall (Forall (λ c, data_cell c = true)) data_rows.
Proof.
  unfold header_distinguished. destruct (tbl_rows t) as [|row0 data_rows].
  - split; [done | by intros (? & ? & ? & _)].
  - rewrite andb_true_iff, !forallb_Forall. split.
    + intros [H0 H1]. exists row0, data_rows. repeat split; [done |].
      eapply Forall_impl; [exact H1 |]. intros row. apply forallb_Forall.
    + intros (? & ? & [= <- <-] & H0 & H1). split; [done |].
      eapply Forall_impl; [exact H1 |]. intros row. apply forallb_Forall.
Qed.

Lemma data_cell_not_filled (c : Cell) : data_cell c = true → filled c = false.
Proof. unfold data_cell. rewrite andb_true_iff, negb_true_iff. by intros [? _]. Qed.

(** Filling a data row keeps the header row and the data rows as they are
    in kind, whether the row fits or not. *)
Lemma fill_row_data (i : nat) (row : list string) (k : nat) (t : Table) :
  i ≠ 0 → header_distinguished t = true →
  header_distinguished (fill_row i row k t).2 = true.
Proof.
  intros Hi. apply (for_from_preserves _ (λ t', header_distinguished t' = true)).
  intros j x t' _ _ Ht'.
  destruct (on_cell_format i j x t')
    as [(r & c & c' & Hr & Hc & _ & Hdata & ->)|[_ ->]]; [| done].
  apply header_distinguished_iff in Ht' as (row0 & data_rows & Hrows & H0 & H1).
  apply header_distinguished_iff. simpl. rewrite Hrows in *.
  destruct i as [|i]; [done |]. simpl in *.
  exists row0, (alter (λ row1, <[j := c']> row1) i data_rows).
  repeat split; [done |].
  pose proof (Forall_lookup_1 _ _ _ _ H1 Hr) as Hrdata. simpl in Hrdata.
  apply Forall_alter; [done |].
  intros r' Hr' _. rewrite Hr in Hr'. injection Hr' as <-.
  apply Forall_insert; [done |].
  apply Hdata; [done |]. apply data_cell_not_filled.
  by apply (Forall_lookup_1 _ _ _ _ Hrdata Hc).
Qed.

(** Filling row 0 with a row as long as the table is wide formats every cell
    of it as a header cell. *)
Lemma fill_row_header (row : list string) (t : Table) (cells : list Cell)
    (rest : list (list Cell)) :
  tbl_rows t = cells :: rest → length row = length cells →
  (fill_row 0 row 0 t).1 = Ok tt
  ∧ ∃ cells', tbl_rows (fill_row 0 row 0 t).2 = cells' :: rest
      ∧ Forall (λ c, header_cell c = true) cells'.
Proof.
  intros Hrows Hlen.
  destruct (for_from_total
              (λ j cell_text, on_cell 0 j (format_cell 0 cell_text))
              (λ j t', ∃ cells', tbl_rows t' = cells' :: rest
                         ∧ length cells' = length cells
                         ∧ Forall (λ c, header_cell c = true) (take j cells'))
              row 0 t) as [H1 (cells' & H2 & H3 & H4)].
  - intros j x t' Hx (cells' & Hrows' & Hlen' & Hhead).
    apply lookup_lt_Some in Hx. simpl in *.
    destruct (on_cell_format 0 j x t')
      as [(r & c & c' & Hr & Hc & Hheader & _ & ->)|[Hge _]].
    + simpl. split; [done |]. rewrite Hrows' in *. simpl in *.
      injection Hr as <-.
      exists (<[j := c']> cells'). repeat split; [by rewrite length_insert |].
      rewrite (take_S_r _ _ c') by (apply list_lookup_insert_eq; lia).
      rewrite take_insert_ge by lia.
      apply Forall_app. split; [done |]. by repeat constructor; apply Hheader.
    + specialize (Hge cells'). rewrite Hrows' in Hge. simpl in Hge.
      specialize (Hge eq_refl). lia.
  - exists cells. repeat split; [done |]. simpl. constructor.
  - split; [done |]. exists cells'. split; [done |].
    simpl in H4. rewrite take_ge in H4 by lia. done.
Qed.

(** The table body on a fresh grid: when it returns, the header row is
    distinguished. *)
Lemma table_body_header (row0 : list string) (rest : list (list string))
    (col_widths : option (list float)) (t : Table) :
  tbl_rows t = replicate (S (length rest)) (replicate (length row0) empty_cell) →
  (table_body (row0 :: rest) col_widths t).1 = Ok tt →
  header_distinguished (table_body (row0 :: rest) col_widths t).2 = true.
Proof.
  intros Hrows. unfold table_body.
  set (W := if truthy col_widths then width_loop (default [] col_widths) 0 else ret tt).
  assert (tbl_rows (W t).2 = tbl_rows t) as HW.
  { unfold W. destruct (truthy col_widths); [apply width_loop_frame | done]. }
  unfold bind at 1 2. destruct (W t) as [[[]|e] t1]; [intros _ | done].
  simpl in HW. rewrite Hrows in HW. simpl in HW.
  unfold fill_rows. rewrite for_from_cons.
  destruct (fill_row_header row0 t1 _ _ HW) as (Hok & cells' & Hrows1 & Hhead).
  { by rewrite length_replicate. }
  unfold bind. change (fill_row 0 row0 0 t1) with
    ((λ (i : nat) (row : list string), fill_row i row 0) 0 row0 t1) in Hok, Hrows1.
  destruct ((λ (i : nat) (row : list string), fill_row i row 0) 0 row0 t1)
    as [r t2]. simpl in Hok, Hrows1. subst r.
  apply (for_from_preserves _ (λ t', header_distinguished t' = true)).
  - intros j row t' Hj _. apply fill_row_data. lia.
  - apply header_distinguished_iff. exists cells', (replicate (length rest)
      (replicate (length row0) empty_cell)).
    repeat split; [done | done |].
    apply Forall_replicate, Forall_replicate. done.
Qed.

(** The table body on a grid that fits does not run into the index error,
    whatever the widths are. *)
Lemma table_body_no_index_error (rows cols : nat) (data : list (list string))
    (col_widths : option (list float)) (t : Table) :
  table_shape rows cols t → length data ≤ rows →
  Forall (λ row, length row ≤ cols) data →
  length (default [] col_widths) ≤ cols →
  (table_body data col_widths t).1 ≠ Raise IndexError.
Proof.
  intros Ht Hrows Hdata Hw. unfold table_body.
  set (W := if truthy col_widths then width_loop (default [] col_widths) 0 else ret tt).
  assert ((W t).1 ≠ Raise IndexError ∧ table_shape rows cols (W t).2) as [HW1 HW2].
  { unfold W. destruct (truthy col_widths); [| done].
    destruct Ht as (Hc & Hr & Hall).
    destruct (width_loop_frame (default [] col_widths) 0 t) as [H1 H2].
    split; [apply width_loop_no_index_error; lia |].
    unfold table_shape. by rewrite H1, H2. }
  unfold bind. destruct (W t) as [[[]|e] t1]; cbn [fst snd] in *; [| done].
  by rewrite (proj1 (fill_rows_ok rows cols data t1 HW2 Hrows Hdata)).
Qed.

(** The slide-level body of [create_table_slide]. *)
Lemma table_slide_body_empty title col_widths :
  table_slide_body title [] col_widths (new_slide TitleOnly)
  = (Raise IndexError, mkSlide TitleOnly (Some (frame_of_text title)) None []).
Proof. reflexivity. Qed.

Lemma table_slide_body_data title row0 rest col_widths :
  table_slide_body title (row0 :: rest) col_widths (new_slide TitleOnly)
  = (table <- add_table (S (length rest)) (length row0) 914400 1828800 table_width
               (table_height (S (length rest))) ;;
     on_table table (table_body (row0 :: rest) col_widths))
      (mkSlide TitleOnly (Some (frame_of_text title)) None []).
Proof.
  unfold table_slide_body.
  erewrite bind_ok; [| reflexivity].
  erewrite bind_ok; [| reflexivity].
  rewrite (bind_eval_ok _ _ _ _ Inches_left).
  rewrite (bind_eval_ok _ _ _ _ Inches_top).
  rewrite (bind_eval_ok _ _ _ _ Inches_width).
  rewrite (bind_eval_ok _ _ _ _ (Inches_height _)).
  reflexivity.
Qed.

(** No columns: [width // cols] raises and the slide gets no table. *)
Lemma table_slide_body_no_columns title rest col_widths :
  table_slide_body title ([] :: rest) col_widths (new_slide TitleOnly)
  = (Raise ZeroDivisionError,
     mkSlide TitleOnly (Some (frame_of_text title)) None []).
Proof.
  rewrite table_slide_body_data. unfold bind at 1. unfold add_table.
  rewrite (bind_eval_ok _ _ _ (table_height (S (length rest)) / Z.of_nat (S (length rest)))%Z).
  2:{ unfold floordiv. by rewrite decide_False by lia. }
  by rewrite (bind_eval_raise _ _ _ ZeroDivisionError).
Qed.

Lemma table_slide_body_run title row0 rest col_widths :
  row0 ≠ [] →
  let data := row0 :: rest in
  let t0 := new_table (length data) (length row0) in
  table_slide_body title data col_widths (new_slide TitleOnly)
  = ((table_body data col_widths t0).1,
     mkSlide TitleOnly (Some (frame_of_text title)) None
       [(table_body data col_widths t0).2]).
Proof.
  intros Hrow0. cbv zeta. rewrite table_slide_body_data.
  unfold bind at 1. unfold add_table.
  rewrite (bind_eval_ok _ _ _ (table_height (S (length rest)) / Z.of_nat (S (length rest)))%Z).
  2:{ unfold floordiv. by rewrite decide_False by lia. }
  rewrite (bind_eval_ok _ _ _ (table_width / Z.of_nat (length row0))%Z).
  2:{ unfold floordiv. rewrite decide_False; [done |]. destruct row0; [done | cbn; lia]. }
  cbn [slide_tables length]. unfold on_table.
  erewrite zoom_some by reflexivity. reflexivity.
Qed.

Lemma new_table_shape (rows cols : nat) : table_shape rows cols (new_table rows cols).
Proof.
  unfold table_shape, new_table. cbn [tbl_columns tbl_rows]. repeat split.
  - apply new_columns_length.
  - by rewrite length_replicate.
  - apply Forall_replicate. by rewrite length_replicate.
Qed.

(** ** The driver *)

(** One [print] statement of the driver. *)
Ltac print_step :=
  unfold bind at 1, on_world at 1, print at 1, modify at 1;
  cbv beta iota zeta; cbn [fs readonly clock stdout].

Lemma script_run (build : M Presentation unit) (w : World) :
  script build w
  = match build Presentation_new with
    | (Raise e, _) => (Raise e, w)
    | (Ok _, prs) =>
        if decide (output_file ∈ readonly w) then (Raise PermissionError, w)
        else (Ok tt,
              mkWorld (<[output_file := mkFile prs (clock w)]> (fs w))
                (readonly w) (clock w)
                (stdout w +:+ unlines (report (length (slides prs)))))
    end.
Proof.
  unfold script, with_local, bind at 1, on_local at 1.
  destruct (build Presentation_new) as [[[]|e] prs]; [| done].
  unfold bind at 1. unfold gets at 1. cbn [fst].
  unfold bind at 1, on_world at 1, save.
  destruct (decide (output_file ∈ readonly w)) as [Hro|Hro]; [done |].
  print_step.
  unfold bind at 1, on_local at 1, gets at 1. cbv beta iota zeta.
  do 7 print_step.
  unfold on_world, print, modify. cbv beta iota zeta. cbn [fs readonly clock stdout].
  do 2 f_equal. rewrite !append_assoc. reflexivity.
Qed.

Lemma helper_call_appends (c : M Presentation nat) (prs : Presentation) :
  helper_call c →
  slides (c prs).2 = slides prs ++ made_by c ∧ length (made_by c) = 1.
Proof.
  intros [title subtitle|title bullet_points|title data col_widths]; unfold made_by.
  - by rewrite !create_title_slide_eq.
  - by rewrite !create_content_slide_eq.
  - by rewrite !create_table_slide_eq.
Qed.

Lemma run_calls_cons {St A} (c : M St A) (cs : list (M St A)) (s : St) :
  run_calls (c :: cs) s = bind c (λ _, run_calls cs) s.
Proof. reflexivity. Qed.

(** The slides a run of helper calls appends are the slides of the calls, in
    the order of the calls. *)
Lemma run_calls_slides (cs : list (M Presentation nat)) (prs : Presentation) :
  Forall helper_call cs → (run_calls cs prs).1 = Ok tt →
  slides (run_calls cs prs).2 = slides prs ++ (cs ≫= made_by).
Proof.
  revert prs. induction cs as [|c cs IH]; intros prs Hcs.
  - intros _. simpl. by rewrite app_nil_r.
  - apply Forall_cons in Hcs as [Hc Hcs].
    rewrite run_calls_cons. unfold bind.
    destruct (helper_call_appends c prs Hc) as [Hslides _].
    destruct (c prs) as [[a|e] prs1]; [| done].
    intros Hok. rewrite (IH prs1 Hcs Hok). simpl in Hslides.
    rewrite Hslides. by rewrite <- app_assoc.
Qed.

(** A call that raises ends the run with its exception. *)
Lemma run_calls_raise {St A} (before after : list (M St A)) (c : M St A)
    (s s1 s2 : St) (e : Exn) :
  run_calls before s = (Ok tt, s1) → c s1 = (Raise e, s2) →
  run_calls (before ++ c :: after) s = (Raise e, s2).
Proof.
  revert s. induction before as [|b before IH]; intros s.
  - intros [= <-] Hc. change ([] ++ c :: after) with (c :: after).
    rewrite run_calls_cons. by rewrite (bind_raise _ _ _ _ _ Hc).
  - simpl app. rewrite !run_calls_cons. unfold bind.
    destruct (b s) as [[a|e'] s']; [| done]. apply IH.
Qed.

Lemma main_calls_are_helper_calls : Forall helper_call main_calls.
Proof.
  unfold main_calls.
  repeat (apply Forall_cons_2;
          [lazymatch goal with
           | |- helper_call (create_title_slide _ _) => apply call_title
           | |- helper_call (create_content_slide _ _) => apply call_content
           | |- helper_call (create_table_slide _ _ _) => apply call_table
           end |]).
  apply Forall_nil_2.
Qed.

Lemma main_slides_run : main_slides Presentation_new = (Ok tt, main_deck).
Proof.
  unfold main_deck. rewrite (surjective_pairing (main_slides Presentation_new)) at 1.
  apply (f_equal2 pair); [vm_compute; reflexivity | reflexivity].
Qed.

Lemma main_deck_slides : slides main_deck = main_calls ≫= made_by.
Proof.
  unfold main_deck, main_slides.
  erewrite bind_ok; [| reflexivity].
  erewrite bind_ok; [| reflexivity].
  erewrite bind_ok; [| reflexivity].
  erewrite bind_ok; [| reflexivity].
  rewrite run_calls_slides.
  - reflexivity.
  - apply main_calls_are_helper_calls.
  - vm_compute. reflexivity.
Qed.

Lemma main_run (w : World) :
  main w
  = if decide (output_file ∈ readonly w) then (Raise PermissionError, w)
    else (Ok tt,
          mkWorld (<[output_file := mkFile main_deck (clock w)]> (fs w))
            (readonly w) (clock w)
            (stdout w +:+ unlines (report (length (slides main_deck))))).
Proof. unfold main. rewrite script_run. by rewrite main_slides_run. Qed.

Lemma main_deck_length : length (slides main_deck) = 15.
Proof. vm_compute. reflexivity. Qed.

(** ** The table of [create_table_slide], cell by cell *)

Lemma map_fonts_pieces (body : Font → Font) (f : Font) (idx : nat)
    (pieces : list string) (n : Z) :
  body default_font = f →
  map_fonts body (mkParagraph (append_pieces idx pieces) n)
  = map_fonts (λ _, f) (mkParagraph (append_pieces idx pieces) n).
Proof.
  intros Hbody. unfold map_fonts. cbn [content level]. f_equal.
  revert idx. induction pieces as [|r_str pieces IH]; intros idx; [done |].
  cbn [append_pieces]. rewrite !fmap_app, IH.
  destruct (decide (0 < idx)), (decide (r_str = EmptyString)); cbn;
    by rewrite ?Hbody.
Qed.

Lemma formatted_paragraphs (body : Font → Font) (f : Font) (x : string) :
  body default_font = f →
  map_fonts body <$> frame_of_text x = map_fonts (λ _, f) <$> frame_of_text x.
Proof.
  intros Hbody. unfold frame_of_text. rewrite <- !list_fmap_compose.
  apply list_fmap_ext. intros _ line _. by apply map_fonts_pieces.
Qed.

(** Filling an empty cell. *)
Lemma format_cell_empty (i : nat) (x : string) :
  format_cell i x empty_cell = (Ok tt, filled_cell i x).
Proof.
  unfold format_cell, filled_cell, formatted_cell.
  erewrite bind_ok; [| reflexivity].
  destruct (decide (i = 0)).
  - erewrite bind_ok; [| reflexivity].
    erewrite bind_ok; [| reflexivity].
    reflexivity.
  - unfold for_each_run, modify. cbn [cell_text_frame cell_fill].
    do 2 f_equal.
    by apply (formatted_paragraphs
                (λ f, mkFont (font_bold f) (Some (Pt 11)) (font_color f))).
Qed.

(** [on_cell] on a cell given by its place in the grid. *)
Lemma on_cell_at {A} (i j : nat) (m : M Cell A) (t : Table)
    (done : list (list Cell)) (pre post : list Cell) (c : Cell)
    (more : list (list Cell)) :
  tbl_rows t = done ++ (pre ++ c :: post) :: more →
  length done = i → length pre = j →
  on_cell i j m t
  = ((m c).1, set_rows (done ++ (pre ++ (m c).2 :: post) :: more) t).
Proof.
  intros Hrows <- <-. unfold on_cell.
  rewrite (zoom_some _ _ _ _ _ c).
  - f_equal. unfold set_rows. f_equal. rewrite Hrows.
    rewrite (alter_app_r_alt _ done) by lia. rewrite Nat.sub_diag. cbn.
    rewrite insert_app_r_alt by lia. by rewrite Nat.sub_diag.
  - rewrite Hrows. rewrite lookup_app_r by lia. rewrite Nat.sub_diag. cbn.
    rewrite lookup_app_r by lia. by rewrite Nat.sub_diag.
Qed.

Lemma fill_row_exact (i : nat) (row : list string) :
  ∀ (j cols : nat) (t : Table) (done : list (list Cell)) (pre : list Cell)
    (more : list (list Cell)),
    tbl_rows t = done ++ (pre ++ replicate (cols - j) empty_cell) :: more →
    length done = i → length pre = j → j + length row ≤ cols →
    fill_row i row j t
    = (Ok tt,
       set_rows (done ++ (pre ++ (filled_cell i <$> row)
                            ++ replicate (cols - (j + length row)) empty_cell)
                   :: more) t).
Proof.
  induction row as [|x row IH]; intros j cols t done pre more Hrows Hi Hj Hfit.
  - cbn. rewrite Nat.add_0_r, <- Hrows. by rewrite set_rows_id.
  - unfold fill_row in *. rewrite for_from_cons. cbn [length] in Hfit.
    destruct (cols - j) as [|n] eqn:Hn; [lia |]. cbn [replicate] in Hrows.
    erewrite bind_ok.
    2:{ rewrite (on_cell_at i j _ t done pre _ empty_cell more Hrows Hi Hj).
        rewrite format_cell_empty. reflexivity. }
    rewrite (IH (S j) cols _ done (pre ++ [filled_cell i x]) more).
    + unfold set_rows. cbn. rewrite <- app_assoc. cbn.
      by replace (j + S (length row)) with (S (j + length row)) by lia.
    + cbn. rewrite <- app_assoc. cbn.
      by replace (cols - S j) with n by lia.
    + done.
    + rewrite length_app. cbn. lia.
    + lia.
Qed.

Lemma fill_rows_exact (cols : nat) (data : list (list string)) :
  ∀ (k : nat) (t : Table) (done : list (list Cell)),
    tbl_rows t = done ++ replicate (length data) (replicate cols empty_cell) →
    length done = k →
    Forall (λ row, length row ≤ cols) data →
    fill_rows data k t = (Ok tt, set_rows (done ++ filled_rows cols k data) t).
Proof.
  induction data as [|row data IH]; intros k t done Hrows Hk Hdata.
  - cbn in *. rewrite <- Hrows. by rewrite set_rows_id.
  - apply Forall_cons in Hdata as [Hrow Hdata].
    unfold fill_rows in *. rewrite for_from_cons. cbn [length replicate] in Hrows.
    erewrite bind_ok.
    2:{ apply (fill_row_exact k row 0 cols t done []
                 (replicate (length data) (replicate cols empty_cell)));
          [| done | done | done].
        cbn. by rewrite Nat.sub_0_r. }
    rewrite (IH (S k) _ (done ++ [filled_row cols k row])).
    + unfold set_rows. cbn. do 2 f_equal. by rewrite <- app_assoc.
    + cbn. by rewrite <- app_assoc.
    + rewrite length_app. cbn. lia.
    + done.
Qed.

Lemma widths_accepted_inv (col_widths : option (list float)) :
  widths_accepted col_widths = true →
  ∃ ws, emu_widths (default [] col_widths) = Some ws
    ∧ Forall (λ w, (0 ≤ w)%Z) ws
    ∧ (table_width + sum_list ws ≤ 27273042316900)%Z.
Proof.
  unfold widths_accepted. destruct (emu_widths _) as [ws|]; [| done].
  intros [H1 H2]%andb_true_iff. exists ws. split; [done |]. split.
  - apply forallb_Forall in H1. eapply Forall_impl; [exact H1 |].
    intros w. apply Z.leb_le.
  - by apply Z.leb_le.
Qed.

(** The loop over the widths on the new table. *)
Lemma width_loop_new_table (rows cols : nat) (col_widths : option (list float))
    (ws : list Z) :
  0 < cols →
  emu_widths (default [] col_widths) = Some ws →
  Forall (λ w, (0 ≤ w)%Z) ws →
  (table_width + sum_list ws ≤ 27273042316900)%Z →
  let t0 := new_table rows cols in
  (if truthy col_widths then width_loop (default [] col_widths) 0 else ret tt) t0
  = if decide (length ws ≤ cols) then
      let columns := with_widths ws (tbl_columns t0) in
      (Ok tt, set_width (sum_list columns) (set_columns columns t0))
    else
      let columns := take cols ws in
      (Raise IndexError, set_width (sum_list columns) (set_columns columns t0)).
Proof.
  intros Hcols Hws Hws0 Hsum. cbv zeta.
  destruct (new_columns_sum cols Hcols) as [Hnew0 Hnewsum].
  assert (width_loop (default [] col_widths) 0 (new_table rows cols)
          = if decide (length ws ≤ cols) then
              let columns := with_widths ws (tbl_columns (new_table rows cols)) in
              (Ok tt, set_width (sum_list columns) (set_columns columns (new_table rows cols)))
            else
              let columns := take cols ws in
              (Raise IndexError,
               set_width (sum_list columns) (set_columns columns (new_table rows cols))))
    as Hloop.
  { rewrite (width_loop_exact _ ws 0 _ [] (tbl_columns (new_table rows cols)));
      try done.
    - cbn [tbl_columns new_table app]. by rewrite new_columns_length.
    - cbn [tbl_columns new_table sum_list foldr].
      change (foldr Z.add 0%Z ws) with (sum_list ws).
      fold (sum_list (new_columns cols table_width (table_width / Z.of_nat cols))).
      rewrite Hnewsum. lia. }
  destruct col_widths as [[|width rest]|]; [| exact Hloop |].
  - injection Hws as <-. cbn [truthy length]. rewrite decide_True by lia.
    unfold with_widths. cbn [app length]. rewrite drop_0. cbv zeta.
    cbn [tbl_columns new_table]. rewrite Hnewsum. reflexivity.
  - injection Hws as <-. cbn [truthy length]. rewrite decide_True by lia.
    unfold with_widths. cbn [app length]. rewrite drop_0. cbv zeta.
    cbn [tbl_columns new_table]. rewrite Hnewsum. reflexivity.
Qed.

(** What [create_table_slide] builds when its arguments fit, there is a
    column and the library accepts the widths. *)
Lemma create_table_slide_exact (title : string) (data : list (list string))
    (col_widths : option (list float)) (prs : Presentation) (ws : list Z) :
  table_args_ok data col_widths → data !! 0 ≠ Some [] →
  emu_widths (default [] col_widths) = Some ws →
  Forall (λ w, (0 ≤ w)%Z) ws →
  (table_width + sum_list ws ≤ 27273042316900)%Z →
  create_table_slide title data col_widths prs
  = (Ok (length (slides prs)),
     mkPresentation (slide_width prs) (slide_height prs)
       (slides prs
        ++ [mkSlide TitleOnly (Some (frame_of_text title)) None
              [built_table data ws]])).
Proof.
  intros (row0 & H0 & Hall & Hw) Hrow0 Hws Hws0 Hsum.
  destruct data as [|r rest]; [done |]. injection H0 as ->.
  assert (row0 ≠ []) as Hne by (intros ->; by apply Hrow0).
  assert (0 < length row0) as Hcols by (destruct row0; [done | cbn; lia]).
  rewrite create_table_slide_eq, (table_slide_body_run _ _ _ _ Hne). cbn [fst snd].
  set (t0 := new_table (length (row0 :: rest)) (length row0)).
  assert (table_body (row0 :: rest) col_widths t0
          = (Ok tt, built_table (row0 :: rest) ws)) as ->; [| done].
  unfold table_body.
  pose proof (width_loop_new_table (length (row0 :: rest)) (length row0) col_widths ws
                Hcols Hws Hws0 Hsum) as HW.
  cbv zeta in HW. fold t0 in HW.
  rewrite decide_True in HW by (rewrite (emu_widths_length _ _ Hws); exact Hw).
  rewrite (bind_ok _ _ _ _ _ HW).
  rewrite (fill_rows_exact (length row0) (row0 :: rest) 0 _ []); [done | done | done | done].
Qed.

Lemma on_cell_format_shape (rows cols i j : nat) (x : string) (t : Table) :
  table_shape rows cols t →
  table_shape rows cols (on_cell i j (format_cell i x) t).2.
Proof.
  intros (Hc & Hr & Hall).
  destruct (on_cell_format i j x t) as [(r & c & c' & _ & _ & _ & _ & ->)|[_ ->]];
    [| done].
  unfold table_shape. cbn. repeat split; [done | by rewrite length_alter |].
  apply Forall_alter; [done |]. intros. by rewrite length_insert.
Qed.

(** A row longer than the table is wide runs into the index error. *)
Lemma fill_row_overflow (rows cols i : nat) (row : list string) :
  ∀ (j : nat) (t : Table),
    table_shape rows cols t → i < rows → j ≤ cols → cols < j + length row →
    (fill_row i row j t).1 = Raise IndexError.
Proof.
  induction row as [|x row IH]; intros j t Ht Hi Hj Hover; [cbn in Hover; lia |].
  unfold fill_row in *. rewrite for_from_cons. unfold bind.
  pose proof (on_cell_format_shape rows cols i j x t Ht) as Ht1.
  destruct (on_cell_format i j x t)
    as [(r & c & c' & Hr & Hc & _ & _ & Hrun)|[_ Hrun]]; rewrite Hrun in *;
    [| done].
  cbn [snd] in Ht1. destruct Ht as (_ & _ & Hall).
  pose proof (Forall_lookup_1 _ _ _ _ Hall Hr) as Hlen. cbn in Hlen.
  apply lookup_lt_Some in Hc.
  apply IH; [done | done | lia | cbn in Hover; lia].
Qed.

Lemma fill_row_ok_shape (rows cols i : nat) (row : list string) (j : nat) (t : Table) :
  table_shape rows cols t → table_shape rows cols (fill_row i row j t).2.
Proof.
  apply (for_from_preserves _ (table_shape rows cols)).
  intros j' x t' _ _. apply on_cell_format_shape.
Qed.

Lemma fill_rows_overflow (rows cols : nat) (data : list (list string)) :
  ∀ (k : nat) (t : Table),
    table_shape rows cols t → k + length data ≤ rows →
    Exists (λ row, cols < length row) data →
    (fill_rows data k t).1 = Raise IndexError.
Proof.
  induction data as [|row data IH]; intros k t Ht Hk Hex; [by inversion Hex |].
  unfold fill_rows in *. rewrite for_from_cons. unfold bind. cbn [length] in Hk.
  destruct (decide (length row ≤ cols)) as [Hfit|Hover].
  - destruct (fill_row_ok rows cols k row t Ht) as [Hok Ht1]; [lia | done |].
    destruct (fill_row k row 0 t) as [r t1]. cbn in Hok, Ht1. subst r.
    apply IH; [done | lia |].
    apply Exists_cons in Hex as [Hex|Hex]; [lia | done].
  - pose proof (fill_row_overflow rows cols k row 0 t Ht) as Hraise.
    destruct (fill_row k row 0 t) as [r t1]. cbn in Hraise.
    rewrite Hraise; [done | lia | lia | lia].
Qed.

(** The text and the runs of a filled cell. *)
Lemma paragraph_text_map_fonts (body : Font → Font) (p : Paragraph) :
  paragraph_text (map_fonts body p) = paragraph_text p.
Proof.
  unfold paragraph_text, map_fonts. cbn [content]. rewrite <- list_fmap_compose.
  f_equal. apply list_fmap_ext. by intros _ [r|] _.
Qed.

Lemma cell_text_formatted (f : Font) (fl : Fill) (x : string) :
  cell_text (formatted_cell f fl x) = shape_text x.
Proof.
  rewrite <- text_frame_text_of_text.
  unfold cell_text, formatted_cell, text_frame_text. cbn [cell_text_frame].
  rewrite <- list_fmap_compose. f_equal. apply list_fmap_ext.
  intros _ p _. apply paragraph_text_map_fonts.
Qed.

Lemma cell_text_filled (i : nat) (x : string) :
  cell_text (filled_cell i x) = shape_text x.
Proof. unfold filled_cell. destruct (decide (i = 0)); apply cell_text_formatted. Qed.

Lemma filled_rows_texts (cols : nat) (data : list (list string)) (k : nat) :
  (λ row : list Cell, cell_text <$> row) <$> filled_rows cols k data
  = (λ row, padded cols (shape_text <$> row)) <$> data.
Proof.
  revert k. induction data as [|row data IH]; intros k; [done |].
  cbn. rewrite IH. f_equal.
  unfold filled_row, padded. rewrite fmap_app, fmap_replicate, <- list_fmap_compose.
  rewrite length_fmap. f_equal. apply list_fmap_ext.
  intros _ x _. apply cell_text_filled.
Qed.

Lemma formatted_cell_runs (f : Font) (fl : Fill) (x : string) (p : Paragraph) (r : Run) :
  p ∈ cell_text_frame (formatted_cell f fl x) → r ∈ runs p → run_font r = f.
Proof.
  unfold formatted_cell. cbn [cell_text_frame].
  intros (p0 & -> & _)%list_elem_of_fmap. rewrite runs_map_fonts.
  by intros (r0 & -> & _)%list_elem_of_fmap.
Qed.

Lemma filled_rows_length (cols : nat) (data : list (list string)) (k : nat) :
  length (filled_rows cols k data) = length data.
Proof. revert k. induction data as [|row data IH]; intros k; cbn; [done | by rewrite IH]. Qed.

Lemma filled_rows_lookup (cols : nat) (data : list (list string)) (k i : nat) :
  filled_rows cols k data !! i = filled_row cols (k + i) <$> data !! i.
Proof.
  revert k i. induction data as [|row data IH]; intros k i; [done |].
  destruct i as [|i]; cbn.
  - by rewrite Nat.add_0_r.
  - rewrite IH. by replace (S k + i) with (k + S i) by lia.
Qed.

Lemma table_of_new_slide (prs : Presentation) (w h : Z) (l : Layout)
    (title body : option TextFrame) (t : Table) :
  table_of (mkPresentation w h (slides prs ++ [mkSlide l title body [t]]))
    (length (slides prs)) = Some t.
Proof.
  unfold table_of. cbn [slides].
  rewrite lookup_app_r by lia. by rewrite Nat.sub_diag.
Qed.

(** * The claims *)

(** C1: running [main] leaves at the output path a presentation with exactly
    one slide per helper call of the driver; [main] makes fifteen helper
    calls, so the saved presentation has fifteen slides. *)
Theorem main_saves_one_slide_per_call (w : World) :
  output_file ∉ readonly w →
  Forall helper_call main_calls
  ∧ ∃ f, fs (main w).2 !! output_file = Some f
      ∧ length (slides (file_presentation f)) = length main_calls
      ∧ length main_calls = 15.
Proof.
  intros Hw. split; [apply main_calls_are_helper_calls |].
  rewrite main_run, decide_False by done. cbn [snd fs].
  exists (mkFile main_deck (clock w)). rewrite lookup_insert_eq.
  split; [done | split; [| reflexivity]].
  cbn [file_presentation]. by rewrite main_deck_length.
Qed.

Lemma main_saves_one_slide_per_call_witness :
  (output_file ∉ readonly empty_world)
  ∧ ∃ f, fs (main empty_world).2 !! output_file = Some f
      ∧ length (slides (file_presentation f)) = length main_calls
      ∧ length main_calls = 15.
Proof.
  split; [apply not_elem_of_empty |].
  apply (main_saves_one_slide_per_call empty_world). apply not_elem_of_empty.
Defined.

(** C2: when [create_table_slide] returns, the slide it returns carries one
    table whose row 0 exists and consists of header cells (filled, every run
    bold) and whose later rows consist of data cells (not filled, no run
    bold); the deck of [main] has exactly two table slides, the 8th and the
    12th, and both tables are of this kind. *)
Theorem table_header_row_distinguished (title : string) (data : list (list string))
    (col_widths : option (list float)) (prs : Presentation) (slide : nat) :
  (create_table_slide title data col_widths prs).1 = Ok slide →
  (∃ s t, slides (create_table_slide title data col_widths prs).2 !! slide = Some s
     ∧ slide_tables s = [t]
     ∧ header_distinguished t = true)
  ∧ (λ s, header_distinguished <$> slide_tables s) <$> slides main_deck
    = [[]; []; []; []; []; []; []; [true]; []; []; []; [true]; []; []; []].
Proof.
  intros Hok. split; [| by vm_compute].
  rewrite create_table_slide_eq in *. cbn [fst snd slides] in *.
  destruct data as [|row0 rest]; [by rewrite table_slide_body_empty in Hok |].
  destruct (decide (row0 = [])) as [->|Hrow0];
    [by rewrite table_slide_body_no_columns in Hok |].
  rewrite (table_slide_body_run _ _ _ _ Hrow0) in *. cbn [fst snd] in *.
  match type of Hok with context [table_body ?d ?c ?t] => set (t0 := t) in * end.
  destruct (table_body (row0 :: rest) col_widths t0).1 as [[]|e] eqn:Hbody; [| done].
  injection Hok as <-.
  eexists _, _. split.
  { rewrite lookup_app_r by lia. rewrite Nat.sub_diag. reflexivity. }
  split; [reflexivity |].
  apply table_body_header; [reflexivity | done].
Qed.

Lemma table_header_row_distinguished_witness :
  (create_table_slide "T" [["a"; "b"]; ["1"; "2"]] None Presentation_new).1 = Ok 0
  ∧ ∃ s t,
      slides (create_table_slide "T" [["a"; "b"]; ["1"; "2"]] None Presentation_new).2
        !! 0 = Some s
      ∧ slide_tables s = [t]
      ∧ header_distinguished t = true.
Proof.
  split; [reflexivity |].
  apply (table_header_row_distinguished "T" [["a"; "b"]; ["1"; "2"]] None
           Presentation_new 0).
  reflexivity.
Defined.




(** C4: two runs of [main] that save the file, from any two worlds, leave
    presentations with the same number of slides and the same text in every
    slide: title, bullets and table cells. *)
Theorem main_content_deterministic (w1 w2 : World) (f1 f2 : File) :
  (main w1).1 = Ok tt → (main w2).1 = Ok tt →
  fs (main w1).2 !! output_file = Some f1 →
  fs (main w2).2 !! output_file = Some f2 →
  length (slides (file_presentation f1)) = length (slides (file_presentation f2))
  ∧ deck_texts (file_presentation f1) = deck_texts (file_presentation f2).
Proof.
  rewrite !main_run.
  destruct (decide (output_file ∈ readonly w1)); [done |].
  destruct (decide (output_file ∈ readonly w2)); [done |].
  cbn [fst snd fs]. rewrite !lookup_insert_eq.
  intros _ _ [= <-] [= <-]. cbn [file_presentation]. split; reflexivity.
Qed.

Lemma main_content_deterministic_witness :
  ∃ f1 f2,
    fs (main empty_world).2 !! output_file = Some f1
    ∧ fs (main old_world).2 !! output_file = Some f2
    ∧ file_mtime f1 = 0 ∧ file_mtime f2 = 7
    ∧ length (slides (file_presentation f1)) = length (slides (file_presentation f2))
    ∧ deck_texts (file_presentation f1) = deck_texts (file_presentation f2).
Proof.
  assert (fs (main empty_world).2 !! output_file = Some (mkFile main_deck 0)) as H1
    by (vm_compute; reflexivity).
  assert (fs (main old_world).2 !! output_file = Some (mkFile main_deck 7)) as H2
    by (vm_compute; reflexivity).
  exists (mkFile main_deck 0), (mkFile main_deck 7).
  split; [exact H1 |]. split; [exact H2 |].
  split; [reflexivity |]. split; [reflexivity |].
  apply (main_content_deterministic empty_world old_world _ _);
    [vm_compute; reflexivity | vm_compute; reflexivity | exact H1 | exact H2].
Defined.

(** C5: a run of [main] changes no path of the file system but the output
    path; when that path can be written the run returns and the file system
    afterwards is the one before with the new presentation bound to the
    output path, whatever was bound to it before. *)
Theorem main_writes_only_output_file (w : World) :
  (∀ p, p ≠ output_file → fs (main w).2 !! p = fs w !! p)
  ∧ (output_file ∉ readonly w →
     (main w).1 = Ok tt
     ∧ fs (main w).2 = <[output_file := mkFile main_deck (clock w)]> (fs w)).
Proof.
  rewrite main_run.
  destruct (decide (output_file ∈ readonly w)) as [Hro|Hro]; cbn [fst snd fs].
  - split; [done | by intros ?].
  - split; [| done]. intros p Hp. by rewrite lookup_insert_ne.
Qed.

Lemma main_writes_only_output_file_witness :
  fs old_world !! output_file = Some (mkFile Presentation_new 3)
  ∧ (main old_world).1 = Ok tt
  ∧ fs (main old_world).2 = <[output_file := mkFile main_deck 7]> (fs old_world).
Proof.
  split; [by vm_compute |].
  apply (proj2 (main_writes_only_output_file old_world)).
  apply not_elem_of_empty.
Defined.

(** C6: the slides of the saved presentation are the slides the helper calls
    of [main] make, in the order of the calls: the title slide is first, the
    layouts and titles follow the calls, and the two table slides are the 8th
    and the 12th. *)
Theorem saved_slides_in_call_order (w : World) :
  output_file ∉ readonly w →
  ∃ f, fs (main w).2 !! output_file = Some f
    ∧ slides (file_presentation f) = main_calls ≫= made_by
    ∧ slide_heading <$> slides (file_presentation f) = main_order
    ∧ (λ s, length (slide_tables s)) <$> slides (file_presentation f)
      = [0; 0; 0; 0; 0; 0; 0; 1; 0; 0; 0; 1; 0; 0; 0].
Proof.
  intros Hw. rewrite main_run, decide_False by done. cbn [snd fs].
  exists (mkFile main_deck (clock w)). rewrite lookup_insert_eq.
  cbn [file_presentation].
  split; [done |]. split; [apply main_deck_slides |]. split; by vm_compute.
Qed.

Lemma saved_slides_in_call_order_witness :
  (output_file ∉ readonly empty_world)
  ∧ ∃ f, fs (main empty_world).2 !! output_file = Some f
      ∧ slides (file_presentation f) = main_calls ≫= made_by
      ∧ slide_heading <$> slides (file_presentation f) = main_order
      ∧ (λ s, length (slide_tables s)) <$> slides (file_presentation f)
        = [0; 0; 0; 0; 0; 0; 0; 1; 0; 0; 0; 1; 0; 0; 0].
Proof.
  split; [apply not_elem_of_empty |].
  apply (saved_slides_in_call_order empty_world). apply not_elem_of_empty.
Defined.

(** C7: nothing in the program catches an exception.  An exception raised
    while the slides are built leaves [main]'s script as that exception, with
    no file written and nothing printed; a save that raises leaves [main] as
    its exception; a helper call that raises ends the run of the calls, the
    later calls are not run; and the index error of [data[0]] leaves
    [create_table_slide].  In each case the result is the exception, not a
    value. *)
Theorem failure_propagates (build : M Presentation unit) (w : World) (e : Exn) :
  ((build Presentation_new).1 = Raise e → script build w = (Raise e, w))
  ∧ (output_file ∈ readonly w → main w = (Raise PermissionError, w))
  ∧ (∀ (before after : list (M Presentation nat)) c prs prs1 prs2,
       run_calls before prs = (Ok tt, prs1) → c prs1 = (Raise e, prs2) →
       run_calls (before ++ c :: after) prs = (Raise e, prs2))
  ∧ (∀ title col_widths prs,
       (create_table_slide title [] col_widths prs).1 = Raise IndexError).
Proof.
  split; [| split; [| split]].
  - intros Hbuild. rewrite script_run.
    destruct (build Presentation_new) as [[[]|e'] prs]; [done |].
    by injection Hbuild as ->.
  - intros Hro. rewrite main_run. by rewrite decide_True.
  - intros before after c prs prs1 prs2. apply run_calls_raise.
  - intros title col_widths prs.
    by rewrite create_table_slide_eq, table_slide_body_empty.
Qed.

Lemma failure_propagates_witness :
  script bad_build empty_world = (Raise IndexError, empty_world)
  ∧ main ro_world = (Raise PermissionError, ro_world).
Proof.
  split.
  - apply (proj1 (failure_propagates bad_build empty_world IndexError)).
    reflexivity.
  - apply (proj1 (proj2 (failure_propagates bad_build ro_world IndexError))).
    change (output_file ∈ ({[output_file]} : gset string)).
    apply elem_of_singleton_2. reflexivity.
Defined.

(** C8, as stated: the precondition does not make the call safe.  With one
    row of no cells the grid of the new table divides by the number of
    columns, and a negative width is not a width the library takes. *)
Lemma create_table_slide_unsafe :
  table_args_ok [[]] None
  ∧ (create_table_slide "T" [[]] None Presentation_new).1 = Raise ZeroDivisionError
  ∧ table_args_ok [["a"]] (Some [(-1)%float])
  ∧ (create_table_slide "T" [["a"]] (Some [(-1)%float]) Presentation_new).1
    = Raise ValueError.
Proof.
  split; [| split; [by vm_compute | split; [| by vm_compute]]].
  - exists []. split; [done |]. split; [| done].
    apply Forall_cons_2; [done | apply Forall_nil_2].
  - exists ["a"]. split; [done |]. split; [| done].
    apply Forall_cons_2; [done | apply Forall_nil_2].
Qed.

(** C8, amended: when [data] is not empty, no row of [data] is longer than
    [data[0]] and [col_widths], when given, is not longer than [data[0]], no
    index access of [create_table_slide] raises: the call does not end in
    [IndexError].  It returns when moreover [data[0]] is not empty and the
    widths are what the library accepts.  When [data[0]] is empty the call
    raises [ZeroDivisionError], and for [data = []] the access [data[0]]
    raises [IndexError]. *)
Theorem create_table_slide_safe (title : string) (data : list (list string))
    (col_widths : option (list float)) (prs : Presentation) :
  (table_args_ok data col_widths →
   (create_table_slide title data col_widths prs).1 ≠ Raise IndexError)
  ∧ (table_args_ok data col_widths → data !! 0 ≠ Some [] →
     widths_accepted col_widths = true →
     (create_table_slide title data col_widths prs).1 = Ok (length (slides prs)))
  ∧ (data !! 0 = Some [] →
     (create_table_slide title data col_widths prs).1 = Raise ZeroDivisionError)
  ∧ (data = [] →
     (create_table_slide title data col_widths prs).1 = Raise IndexError).
Proof.
  split; [| split; [| split]].
  - intros (row0 & H0 & Hall & Hw).
    destruct data as [|r rest]; [done |]. injection H0 as ->.
    rewrite create_table_slide_eq. cbn [fst].
    destruct (decide (row0 = [])) as [->|Hrow0];
      [by rewrite table_slide_body_no_columns |].
    rewrite (table_slide_body_run _ _ _ _ Hrow0). cbn [fst].
    pose proof (table_body_no_index_error (length (row0 :: rest)) (length row0)
                  (row0 :: rest) col_widths _ (new_table_shape _ _)
                  (le_n _) Hall Hw) as Hbody.
    destruct (table_body _ _ _).1 as [[]|e]; [done |]. by intros [= ->].
  - intros Hargs Hrow0 (ws & Hws & Hws0 & Hsum)%widths_accepted_inv.
    by rewrite (create_table_slide_exact _ _ _ _ ws).
  - intros H0. destruct data as [|r rest]; [done |]. injection H0 as ->.
    by rewrite create_table_slide_eq, table_slide_body_no_columns.
  - intros ->. by rewrite create_table_slide_eq, table_slide_body_empty.
Qed.

Lemma create_table_slide_safe_witness :
  table_args_ok [["a"; "b"]; ["c"]] (Some [1.5%float])
  ∧ (create_table_slide "T" [["a"; "b"]; ["c"]] (Some [1.5%float]) Presentation_new).1
    ≠ Raise IndexError
  ∧ (create_table_slide "T" [["a"; "b"]; ["c"]] (Some [1.5%float]) Presentation_new).1
    = Ok 0.
Proof.
  assert (table_args_ok [["a"; "b"]; ["c"]] (Some [1.5%float])) as Hargs.
  { exists ["a"; "b"]. split; [reflexivity |]. split.
    - apply Forall_cons_2; [apply le_n |].
      apply Forall_cons_2; [apply le_S, le_n | apply Forall_nil_2].
    - apply le_S, le_n. }
  split; [exact Hargs |]. split.
  - apply (proj1 (create_table_slide_safe "T" [["a"; "b"]; ["c"]] (Some [1.5%float])
                    Presentation_new)).
    exact Hargs.
  - apply (proj1 (proj2 (create_table_slide_safe "T" [["a"; "b"]; ["c"]]
                           (Some [1.5%float]) Presentation_new)));
      [exact Hargs | discriminate | reflexivity].
Defined.

(** C9, as stated: the body does not always hold the given level and text.
    A level above 8 is refused, and a line feed in the text of a bullet is a
    line break of the paragraph, which reads as a vertical tab. *)
Lemma create_content_slide_level_and_text :
  (create_content_slide "T" (Some [(9%Z, "a")]) Presentation_new).1 = Raise ValueError
  ∧ ∃ s tf,
      create_content_slide "T" (Some [(0%Z, "a" +:+ String LF "b")]) Presentation_new
      = (Ok 0, mkPresentation 9144000 6858000 [s])
      ∧ slide_body s = Some tf
      ∧ bullets tf = [(0%Z, "a" +:+ String VT "b")].
Proof.
  split; [by vm_compute |]. eexists _, _. split; [by vm_compute |].
  split; [reflexivity | by vm_compute].
Qed.

(** C9, amended: when every level is one of 0 to 8 [create_content_slide]
    returns and appends one slide with the title set.  With [bullet_points]
    [None] or [[]] the body placeholder of that slide is as in a new slide;
    with a non-empty list the body has one paragraph per pair, in order,
    each with the level of its pair and with its text as a paragraph reads
    it: line feeds as vertical tabs and control characters escaped, so the
    very text when it is plain.  When a level is not one of 0 to 8 the call
    raises [ValueError], with its slide appended. *)
Theorem create_content_slide_bullets (title : string)
    (bullet_points : option (list (Z * string))) (prs : Presentation) :
  (Forall level_ok (default [] bullet_points) →
   ∃ s,
     create_content_slide title bullet_points prs
     = (Ok (length (slides prs)),
        mkPresentation (slide_width prs) (slide_height prs) (slides prs ++ [s]))
     ∧ slide_layout s = TitleAndContent
     ∧ text_frame_text <$> slide_title s = Some (shape_text title)
     ∧ (plain title = true → text_frame_text <$> slide_title s = Some title)
     ∧ match bullet_points with
       | None | Some [] => slide_body s = slide_body (new_slide TitleAndContent)
       | Some pairs =>
           ∃ tf, slide_body s = Some tf
             ∧ length tf = length pairs
             ∧ bullets tf = (λ b, (b.1, bullet_text b.2)) <$> pairs
             ∧ (Forall (λ b, plain b.2 = true) pairs → bullets tf = pairs)
       end)
  ∧ (Exists (λ b, ¬ level_ok b) (default [] bullet_points) →
     (create_content_slide title bullet_points prs).1 = Raise ValueError
     ∧ length (slides (create_content_slide title bullet_points prs).2)
       = S (length (slides prs))).
Proof.
  split.
  - intros Hlevels.
    rewrite create_content_slide_eq, (content_slide_body_run _ _ Hlevels).
    cbn [fst snd]. eexists. split; [reflexivity |].
    cbn [slide_layout slide_title slide_body]. split; [done |].
    cbn [fmap option_fmap option_map]. rewrite text_frame_text_of_text.
    split; [done |]. split.
    { intros Hplain. unfold shape_text. by rewrite read_back_plain. }
    destruct bullet_points as [[|b bs]|]; try done.
    eexists. split; [reflexivity |]. split; [by rewrite length_fmap |].
    rewrite bullets_of_paragraphs. split; [done |].
    intros Hplain. rewrite <- (list_fmap_id (b :: bs)) at 2.
    apply list_fmap_ext. intros i [l t] Hi. cbn [fst snd id].
    unfold bullet_text. rewrite read_back_plain; [done |].
    by apply (Forall_lookup_1 _ _ _ _ Hplain Hi).
  - intros Hlevels. rewrite create_content_slide_eq. cbn [fst snd slides].
    rewrite (content_slide_body_raise _ _ Hlevels). split; [done |].
    rewrite length_app. cbn. lia.
Qed.

Lemma create_content_slide_bullets_witness :
  Forall level_ok [(1%Z, "b")]
  ∧ ∃ s,
      create_content_slide "A" (Some [(1%Z, "b")]) Presentation_new
      = (Ok 0, mkPresentation 9144000 6858000 [s])
      ∧ slide_layout s = TitleAndContent
      ∧ text_frame_text <$> slide_title s = Some "A"
      ∧ ∃ tf, slide_body s = Some tf ∧ length tf = 1 ∧ bullets tf = [(1%Z, "b")].
Proof.
  assert (Forall level_ok [(1%Z, "b")]) as Hlevels.
  { apply Forall_cons_2; [| apply Forall_nil_2]. unfold level_ok. cbn. lia. }
  split; [exact Hlevels |].
  destruct (proj1 (create_content_slide_bullets "A" (Some [(1%Z, "b")])
                     Presentation_new) Hlevels)
    as (s & Hrun & Hlayout & _ & Htitle & tf & Hbody & Hlen & _ & Hbullets).
  exists s. split; [exact Hrun |]. split; [exact Hlayout |].
  split; [apply Htitle; reflexivity |].
  exists tf. split; [exact Hbody |]. split; [exact Hlen |].
  apply Hbullets. apply Forall_cons_2; [reflexivity | apply Forall_nil_2].
Defined.

(** C10: each call of a helper appends exactly one slide: the slide count
    grows by one and the slides that were there stay as they are, also when
    the call raises. *)
Theorem helper_appends_exactly_one_slide (prs : Presentation) :
  (∀ title subtitle,
     appends_one_slide prs (create_title_slide title subtitle prs).2)
  ∧ (∀ title bullet_points,
       appends_one_slide prs (create_content_slide title bullet_points prs).2)
  ∧ (∀ title data col_widths,
       appends_one_slide prs (create_table_slide title data col_widths prs).2).
Proof.
  assert (∀ s prs', slides prs' = slides prs ++ [s] → appends_one_slide prs prs')
    as Happ.
  { intros s prs' Hs. unfold appends_one_slide. rewrite Hs. split.
    - rewrite length_app. simpl. lia.
    - exists s. split; [done |]. intros i s0 Hi. by apply lookup_app_l_Some. }
  split; [| split]; intros.
  - rewrite create_title_slide_eq. by eapply Happ.
  - rewrite create_content_slide_eq. by eapply Happ.
  - rewrite create_table_slide_eq. by eapply Happ.
Qed.

(** * Further properties *)

(** X1: [create_title_slide] returns; it appends one slide with the
    title-slide layout and no table, whose title and subtitle placeholder
    read as the given title and subtitle do once assigned: with the control
    characters escaped, so as they are when they are plain. *)
Theorem create_title_slide_texts (title subtitle : string) (prs : Presentation) :
  ∃ s,
    create_title_slide title subtitle prs
    = (Ok (length (slides prs)),
       mkPresentation (slide_width prs) (slide_height prs) (slides prs ++ [s]))
    ∧ slide_layout s = TitleSlide
    ∧ text_frame_text <$> slide_title s = Some (shape_text title)
    ∧ text_frame_text <$> slide_body s = Some (shape_text subtitle)
    ∧ slide_tables s = []
    ∧ (plain title = true → text_frame_text <$> slide_title s = Some title)
    ∧ (plain subtitle = true → text_frame_text <$> slide_body s = Some subtitle).
Proof.
  rewrite create_title_slide_eq, title_slide_body_run. cbn [fst snd].
  eexists. split; [reflexivity |].
  cbn [slide_layout slide_title slide_body slide_tables fmap option_fmap option_map].
  rewrite !text_frame_text_of_text.
  split; [done |]. split; [done |]. split; [done |]. split; [done |].
  split; intros Hplain; unfold shape_text; by rewrite read_back_plain.
Qed.

Lemma create_title_slide_texts_witness :
  ∃ s,
    create_title_slide "Titel" ("a" +:+ String "001"%char "b") Presentation_new
    = (Ok 0, mkPresentation 9144000 6858000 [s])
    ∧ text_frame_text <$> slide_title s = Some "Titel"
    ∧ text_frame_text <$> slide_body s = Some "a_x0001_b".
Proof.
  destruct (create_title_slide_texts "Titel" ("a" +:+ String "001"%char "b")
              Presentation_new)
    as (s & Hrun & _ & _ & Hsub & _ & Htitle & _).
  exists s. split; [exact Hrun |]. split; [apply Htitle; reflexivity | exact Hsub].
Defined.

(** X2: when the arguments fit, [data[0]] is not empty and the library
    accepts the widths, [create_table_slide] returns and the new slide has
    the title-only layout, the title as it reads once assigned, and one
    table with one row per row of [data]; the texts of the cells are the
    texts of [data] as they read once assigned, row by row, a row shorter
    than [data[0]] continued by empty cells. *)
Theorem table_cells_hold_data (title : string) (data : list (list string))
    (col_widths : option (list float)) (prs : Presentation) :
  table_args_ok data col_widths → data !! 0 ≠ Some [] →
  widths_accepted col_widths = true →
  ∃ s t,
    create_table_slide title data col_widths prs
    = (Ok (length (slides prs)),
       mkPresentation (slide_width prs) (slide_height prs) (slides prs ++ [s]))
    ∧ slide_layout s = TitleOnly
    ∧ text_frame_text <$> slide_title s = Some (shape_text title)
    ∧ slide_tables s = [t]
    ∧ length (tbl_rows t) = length data
    ∧ (λ row : list Cell, cell_text <$> row) <$> tbl_rows t
      = (λ row, padded (length (default [] (data !! 0))) (shape_text <$> row)) <$> data
    ∧ (Forall (Forall (λ x, plain x = true)) data →
       (λ row : list Cell, cell_text <$> row) <$> tbl_rows t
       = padded (length (default [] (data !! 0))) <$> data).
Proof.
  intros Hargs Hrow0 (ws & Hws & Hws0 & Hsum)%widths_accepted_inv.
  rewrite (create_table_slide_exact _ _ _ _ ws Hargs Hrow0 Hws Hws0 Hsum).
  eexists _, _. split; [reflexivity |]. cbn [slide_layout slide_title slide_tables].
  split; [done |].
  cbn [fmap option_fmap option_map]. rewrite text_frame_text_of_text.
  split; [done |]. split; [done |].
  unfold built_table. cbn [tbl_rows].
  split; [apply filled_rows_length |]. rewrite filled_rows_texts.
  split; [done |]. intros Hplain. apply list_fmap_ext. intros i row Hi. f_equal.
  rewrite <- (list_fmap_id row) at 2. apply list_fmap_ext. intros j x Hj. cbn [id].
  unfold shape_text. apply read_back_plain.
  pose proof (Forall_lookup_1 _ _ _ _ Hplain Hi) as Hrow.
  by apply (Forall_lookup_1 _ _ _ _ Hrow Hj).
Qed.

Lemma table_cells_hold_data_witness :
  ∃ s t,
    create_table_slide "T" [["a"; "b"]; ["c"]] None Presentation_new
    = (Ok 0, mkPresentation 9144000 6858000 [s])
    ∧ slide_layout s = TitleOnly
    ∧ text_frame_text <$> slide_title s = Some "T"
    ∧ slide_tables s = [t]
    ∧ length (tbl_rows t) = 2
    ∧ (λ row : list Cell, cell_text <$> row) <$> tbl_rows t
      = [["a"; "b"]; ["c"; EmptyString]].
Proof.
  destruct (table_cells_hold_data "T" [["a"; "b"]; ["c"]] None Presentation_new)
    as (s & t & Hrun & Hlayout & Htitle & Htables & Hrows & Htexts & _).
  - exists ["a"; "b"]. split; [reflexivity |]. split.
    + apply Forall_cons_2; [apply le_n |].
      apply Forall_cons_2; [apply le_S, le_n | apply Forall_nil_2].
    + apply Nat.le_0_l.
  - discriminate.
  - reflexivity.
  - exists s, t. repeat (split; [assumption |]). exact Htexts.
Defined.

(** X3: under the same conditions every cell of row 0 of the new table has
    the solid fill RGB(68, 114, 196) and all its runs are bold, white and
    12 pt; every cell of a later row has no fill and all its runs are 11 pt
    with bold and colour not set. *)
Theorem table_cells_formatted (title : string) (data : list (list string))
    (col_widths : option (list float)) (prs : Presentation) :
  table_args_ok data col_widths → data !! 0 ≠ Some [] →
  widths_accepted col_widths = true →
  ∃ t,
    table_of (create_table_slide title data col_widths prs).2 (length (slides prs))
    = Some t
    ∧ ∀ i row c,
        tbl_rows t !! i = Some row → c ∈ row →
        cell_fill c
        = (if decide (i = 0) then SolidFill (Some (RGB 68 114 196)) else NoFill)
        ∧ ∀ p r, p ∈ cell_text_frame c → r ∈ runs p →
            run_font r
            = if decide (i = 0)
              then mkFont (Some true) (Some 152400%Z) (Some (RGB 255 255 255))
              else mkFont None (Some 139700%Z) None.
Proof.
  intros Hargs Hrow0 (ws & Hws & Hws0 & Hsum)%widths_accepted_inv.
  rewrite (create_table_slide_exact _ _ _ _ ws Hargs Hrow0 Hws Hws0 Hsum). cbn [snd].
  eexists. split; [apply table_of_new_slide |].
  destruct Hargs as (row0 & H0 & Hall & _).
  unfold built_table. cbn [tbl_rows]. rewrite H0. cbn [default].
  intros i row c Hrow Hc.
  rewrite filled_rows_lookup in Hrow. cbn in Hrow.
  destruct (data !! i) as [r|] eqn:Hr; [| done]. injection Hrow as <-.
  unfold filled_row in Hc. apply elem_of_app in Hc as [Hc|Hc].
  - apply list_elem_of_fmap in Hc as (x & -> & _).
    unfold filled_cell. destruct (decide (i = 0)).
    + split; [done |]. intros p r'. apply formatted_cell_runs.
    + split; [done |]. intros p r'. apply formatted_cell_runs.
  - apply elem_of_replicate in Hc as [-> Hpad].
    destruct (decide (i = 0)) as [->|_].
    + rewrite H0 in Hr. injection Hr as ->. lia.
    + split; [done |].
      intros p r' Hp. apply list_elem_of_singleton in Hp as ->. cbn.
      by intros ?%elem_of_nil.
Qed.

Lemma table_cells_formatted_witness :
  ∃ t,
    table_of (create_table_slide "T" [["a"; "b"]; ["c"]] None Presentation_new).2 0
    = Some t
    ∧ ∀ i row c,
        tbl_rows t !! i = Some row → c ∈ row →
        cell_fill c
        = (if decide (i = 0) then SolidFill (Some (RGB 68 114 196)) else NoFill)
        ∧ ∀ p r, p ∈ cell_text_frame c → r ∈ runs p →
            run_font r
            = if decide (i = 0)
              then mkFont (Some true) (Some 152400%Z) (Some (RGB 255 255 255))
              else mkFont None (Some 139700%Z) None.
Proof.
  apply (table_cells_formatted "T" [["a"; "b"]; ["c"]] None Presentation_new).
  - exists ["a"; "b"]. split; [reflexivity |]. split.
    + apply Forall_cons_2; [apply le_n |].
      apply Forall_cons_2; [apply le_S, le_n | apply Forall_nil_2].
    + apply Nat.le_0_l.
  - discriminate.
  - reflexivity.
Defined.

(** X4: under the same conditions the new table has as many columns as
    [data[0]] has entries; column [i] has the width [Inches(col_widths[i])],
    computed in binary64, for every [i] within [col_widths]; and the frame
    of the table is as wide as its columns together. *)
Theorem table_column_widths (title : string) (data : list (list string))
    (col_widths : option (list float)) (prs : Presentation) :
  table_args_ok data col_widths → data !! 0 ≠ Some [] →
  widths_accepted col_widths = true →
  ∃ t,
    table_of (create_table_slide title data col_widths prs).2 (length (slides prs))
    = Some t
    ∧ length (tbl_columns t) = length (default [] (data !! 0))
    ∧ (∀ i width, default [] col_widths !! i = Some width →
         ∃ w, Inches width = Ok w ∧ tbl_columns t !! i = Some w)
    ∧ tbl_width t = sum_list (tbl_columns t).
Proof.
  intros Hargs Hrow0 (ws & Hws & Hws0 & Hsum)%widths_accepted_inv.
  rewrite (create_table_slide_exact _ _ _ _ ws Hargs Hrow0 Hws Hws0 Hsum). cbn [snd].
  eexists. split; [apply table_of_new_slide |].
  destruct Hargs as (row0 & H0 & _ & Hw).
  pose proof (emu_widths_length _ _ Hws) as Hlen.
  unfold built_table, with_widths. cbn [tbl_columns tbl_width]. rewrite H0.
  change (default [] (Some row0)) with row0.
  split; [| split; [| done]].
  - rewrite length_app, length_drop, new_columns_length. lia.
  - intros i width Hi.
    destruct (emu_widths_lookup _ _ _ _ Hws Hi) as (w & Hwidth & Hwi).
    exists w. split; [done |]. by apply lookup_app_l_Some.
Qed.

Lemma table_column_widths_witness :
  ∃ t,
    table_of (create_table_slide "T" [["a"; "b"]; ["c"]] (Some [4.1%float])
                Presentation_new).2 0
    = Some t
    ∧ length (tbl_columns t) = 2
    ∧ tbl_columns t !! 0 = Some 3749039%Z
    ∧ tbl_width t = sum_list (tbl_columns t).
Proof.
  destruct (table_column_widths "T" [["a"; "b"]; ["c"]] (Some [4.1%float])
              Presentation_new) as (t & Ht & Hlen & Hcols & Hwidth).
  - exists ["a"; "b"]. split; [reflexivity |]. split.
    + apply Forall_cons_2; [apply le_n |].
      apply Forall_cons_2; [apply le_S, le_n | apply Forall_nil_2].
    + apply le_S, le_n.
  - discriminate.
  - reflexivity.
  - exists t. split; [exact Ht |]. split; [exact Hlen |]. split; [| exact Hwidth].
    destruct (Hcols 0 4.1%float eq_refl) as (w & Hw & Hcol).
    rewrite Hcol. f_equal.
    assert (Inches 4.1 = Ok 3749039%Z) as Hvalue by (vm_compute; reflexivity).
    rewrite Hvalue in Hw. by injection Hw as <-.
Defined.

(** X5: when the arguments do not fit ([data] empty, a row longer than
    [data[0]], or more widths than [data[0]] has entries) while [data[0]] is
    not empty and the widths are what the library accepts, the call raises
    [IndexError]. *)
Theorem create_table_slide_raises (title : string) (data : list (list string))
    (col_widths : option (list float)) (prs : Presentation) :
  ¬ table_args_ok data col_widths → data !! 0 ≠ Some [] →
  widths_accepted col_widths = true →
  (create_table_slide title data col_widths prs).1 = Raise IndexError.
Proof.
  intros Hargs Hrow0 (ws & Hws & Hws0 & Hsum)%widths_accepted_inv.
  rewrite create_table_slide_eq. cbn [fst].
  destruct data as [|row0 rest]; [by rewrite table_slide_body_empty |].
  assert (row0 ≠ []) as Hne by (intros ->; by apply Hrow0).
  assert (0 < length row0) as Hcols by (destruct row0; [done | cbn; lia]).
  rewrite (table_slide_body_run _ _ _ _ Hne). cbn [fst].
  set (t0 := new_table (length (row0 :: rest)) (length row0)).
  assert ((table_body (row0 :: rest) col_widths t0).1 = Raise IndexError) as ->;
    [| done].
  unfold table_body. unfold bind at 1.
  pose proof (width_loop_new_table (length (row0 :: rest)) (length row0) col_widths ws
                Hcols Hws Hws0 Hsum) as HW.
  cbv zeta in HW. fold t0 in HW. rewrite HW.
  pose proof (emu_widths_length _ _ Hws) as Hlen.
  destruct (decide (length ws ≤ length row0)) as [Hw|Hw]; [| done].
  assert (Exists (λ row, length row0 < length row) (row0 :: rest)) as Hex.
  { destruct (decide (Forall (λ row, length row ≤ length row0) (row0 :: rest)))
      as [Hall|Hall].
    - destruct Hargs. exists row0. split; [done |]. split; [done | lia].
    - apply not_Forall_Exists in Hall; [| apply _].
      eapply Exists_impl; [exact Hall |]. cbn. lia. }
  apply (fill_rows_overflow (length (row0 :: rest)) (length row0)); [| lia | done].
  destruct (new_table_shape (length (row0 :: rest)) (length row0)) as (Hc & Hr & Hcells).
  unfold table_shape. cbn [tbl_columns tbl_rows set_width set_columns].
  split; [| done]. unfold with_widths.
  rewrite length_app, length_drop. fold t0 in Hc. lia.
Qed.

Lemma create_table_slide_raises_witness :
  ¬ table_args_ok [["a"]; ["b"; "c"]] (Some [2.5%float])
  ∧ (create_table_slide "T" [["a"]; ["b"; "c"]] (Some [2.5%float]) Presentation_new).1
    = Raise IndexError.
Proof.
  assert (¬ table_args_ok [["a"]; ["b"; "c"]] (Some [2.5%float])) as Hargs.
  { intros (row0 & H0 & Hall & _). injection H0 as <-.
    apply Forall_cons in Hall as [_ Hall]. apply Forall_cons in Hall as [Hlen _].
    cbn in Hlen. lia. }
  split; [exact Hargs |].
  apply (create_table_slide_raises "T" [["a"]; ["b"; "c"]] (Some [2.5%float])
           Presentation_new);
    [exact Hargs | discriminate | reflexivity].
Defined.

(** X6: the value a helper call returns is the position of the slide it
    appended, the last of the presentation; the page size of the
    presentation is as before. *)
Theorem helper_returns_new_slide (c : M Presentation nat) (prs : Presentation)
    (slide : nat) :
  helper_call c → (c prs).1 = Ok slide →
  slide = length (slides prs)
  ∧ length (slides (c prs).2) = S slide
  ∧ is_Some (slides (c prs).2 !! slide)
  ∧ slide_width (c prs).2 = slide_width prs
  ∧ slide_height (c prs).2 = slide_height prs.
Proof.
  intros Hc Hok.
  assert (∃ s, (c prs).2
               = mkPresentation (slide_width prs) (slide_height prs) (slides prs ++ [s])
               ∧ ((c prs).1 = Ok (length (slides prs)) ∨ ∃ e, (c prs).1 = Raise e))
    as (s & Hstate & Hres).
  { destruct Hc as [title subtitle|title bullet_points|title data col_widths].
    - rewrite create_title_slide_eq. eexists. split; [reflexivity |]. cbn [fst].
      destruct (title_slide_body _ _ _).1; [by left | right; by eexists].
    - rewrite create_content_slide_eq. eexists. split; [reflexivity |]. cbn [fst].
      destruct (content_slide_body _ _ _).1; [by left | right; by eexists].
    - rewrite create_table_slide_eq. eexists. split; [reflexivity |]. cbn [fst].
      destruct (table_slide_body _ _ _ _).1; [by left | right; by eexists]. }
  rewrite Hstate. cbn [slides slide_width slide_height].
  destruct Hres as [Hres|[e Hres]]; rewrite Hres in Hok; [| done].
  injection Hok as <-.
  rewrite length_app, lookup_app_r by lia. rewrite Nat.sub_diag. cbn.
  repeat split; [lia | by eexists].
Qed.

Lemma helper_returns_new_slide_witness :
  (create_content_slide "A" (Some [(1%Z, "b")]) main_deck).1 = Ok 15
  ∧ length (slides (create_content_slide "A" (Some [(1%Z, "b")]) main_deck).2) = 16
  ∧ is_Some (slides (create_content_slide "A" (Some [(1%Z, "b")]) main_deck).2 !! 15)
  ∧ slide_width (create_content_slide "A" (Some [(1%Z, "b")]) main_deck).2
    = slide_width main_deck
  ∧ slide_height (create_content_slide "A" (Some [(1%Z, "b")]) main_deck).2
    = slide_height main_deck.
Proof.
  assert ((create_content_slide "A" (Some [(1%Z, "b")]) main_deck).1 = Ok 15) as Hok
    by (vm_compute; reflexivity).
  split; [exact Hok |].
  apply (helper_returns_new_slide (create_content_slide "A" (Some [(1%Z, "b")]))
           main_deck 15 (call_content "A" (Some [(1%Z, "b")])) Hok).
Defined.

(** A run of calls that returns: every call returned. *)
Lemma run_calls_ok_split {St A} (before after : list (M St A)) (c : M St A) (s : St) :
  (run_calls (before ++ c :: after) s).1 = Ok tt →
  ∃ s1 a, run_calls before s = (Ok tt, s1) ∧ (c s1).1 = Ok a.
Proof.
  revert s. induction before as [|b before IH]; intros s.
  - change ([] ++ c :: after) with (c :: after). rewrite run_calls_cons. unfold bind.
    destruct (c s) as [[a|e] s1] eqn:Hc; [| done].
    intros _. exists s, a. by rewrite Hc.
  - change ((b :: before) ++ c :: after) with (b :: (before ++ c :: after)).
    rewrite !run_calls_cons. unfold bind.
    destruct (b s) as [[a|e] s']; [apply IH | done].
Qed.

(** A run of calls that raises: one call raised, those before it returned,
    and the run ended there. *)
Lemma run_calls_raise_split {St A} (calls : list (M St A)) (s : St) (e : Exn) :
  (run_calls calls s).1 = Raise e →
  ∃ before c after s1,
    calls = before ++ c :: after
    ∧ run_calls before s = (Ok tt, s1)
    ∧ (c s1).1 = Raise e
    ∧ (run_calls calls s).2 = (c s1).2.
Proof.
  revert s. induction calls as [|c calls IH]; intros s; [done |].
  rewrite run_calls_cons. unfold bind.
  destruct (c s) as [[a|e'] s'] eqn:Hc.
  - intros (before & c' & after & s1 & -> & Hbefore & Hc' & Hstate)%IH.
    exists (c :: before), c', after, s1. split; [done |].
    rewrite run_calls_cons. unfold bind. rewrite Hc. done.
  - cbn [fst snd]. intros [= ->].
    exists [], c, calls, s. by rewrite Hc.
Qed.

(** X7: helper calls run one after the other.  When the run returns, every
    call returned, and the slides are those that were there followed by the
    slide of each call, in the order of the calls; the slide of a call is the
    one it makes on a new presentation, whatever was appended before.  When
    the run raises, one call raised that exception after the calls before it
    returned; the run ended with that call: the state is the one the call
    left, with its slide appended, and no later call has run. *)
Theorem helper_calls_compose (calls : list (M Presentation nat)) (prs : Presentation) :
  Forall helper_call calls →
  ((run_calls calls prs).1 = Ok tt →
   slides (run_calls calls prs).2 = slides prs ++ (calls ≫= made_by)
   ∧ length (slides (run_calls calls prs).2) = length (slides prs) + length calls
   ∧ ∀ before c after, calls = before ++ c :: after →
       ∃ prs1 slide, run_calls before prs = (Ok tt, prs1) ∧ (c prs1).1 = Ok slide)
  ∧ (∀ e, (run_calls calls prs).1 = Raise e →
     ∃ before c after prs1,
       calls = before ++ c :: after
       ∧ run_calls before prs = (Ok tt, prs1)
       ∧ (c prs1).1 = Raise e
       ∧ (run_calls calls prs).2 = (c prs1).2
       ∧ slides (run_calls calls prs).2
         = slides prs ++ ((before ++ [c]) ≫= made_by)
       ∧ length (slides (run_calls calls prs).2)
         = length (slides prs) + length before + 1).
Proof.
  intros Hcalls.
  assert (∀ cs, Forall helper_call cs → length (cs ≫= made_by) = length cs) as Hcount.
  { induction 1 as [|c cs Hc _ IH]; [done |].
    cbn. rewrite length_app, IH.
    by rewrite (proj2 (helper_call_appends c Presentation_new Hc)). }
  split.
  - intros Hok. pose proof (run_calls_slides calls prs Hcalls Hok) as Hslides.
    split; [done |]. split.
    + by rewrite Hslides, length_app, Hcount.
    + intros before c after ->. by apply (run_calls_ok_split before after).
  - intros e (before & c & after & prs1 & -> & Hbefore & Hc & Hstate)%run_calls_raise_split.
    exists before, c, after, prs1. repeat (split; [done |]).
    apply Forall_app in Hcalls as [Hb Hc'%Forall_cons_1].
    destruct Hc' as [Hc' _].
    pose proof (run_calls_slides before prs Hb) as Hslides.
    rewrite Hbefore in Hslides. cbn [fst snd] in Hslides.
    destruct (helper_call_appends c prs1 Hc') as [Hnew Hone].
    assert (slides (run_calls (before ++ c :: after) prs).2
            = slides prs ++ (before ++ [c]) ≫= made_by) as Hall.
    { rewrite Hstate, Hnew, Hslides by done.
      rewrite bind_app. cbn. by rewrite app_nil_r, <- app_assoc. }
    split; [done |].
    rewrite Hall, length_app, Hcount; [rewrite length_app; cbn; lia |].
    apply Forall_app. split; [done |]. by apply Forall_singleton.
Qed.

Lemma helper_calls_compose_witness :
  (run_calls three_calls main_deck).1 = Raise IndexError
  ∧ ∃ before c after prs1,
      three_calls = before ++ c :: after
      ∧ run_calls before main_deck = (Ok tt, prs1)
      ∧ (c prs1).1 = Raise IndexError
      ∧ (run_calls three_calls main_deck).2 = (c prs1).2
      ∧ slides (run_calls three_calls main_deck).2
        = slides main_deck ++ ((before ++ [c]) ≫= made_by)
      ∧ length (slides (run_calls three_calls main_deck).2)
        = length (slides main_deck) + length before + 1.
Proof.
  assert ((run_calls three_calls main_deck).1 = Raise IndexError) as Hraise
    by (vm_compute; reflexivity).
  split; [exact Hraise |].
  apply (proj2 (helper_calls_compose three_calls main_deck
                  (Forall_cons_2 _ _ _ (call_title "A" "B")
                     (Forall_cons_2 _ _ _ (call_table "T" [] None)
                        (Forall_cons_2 _ _ _ (call_content "C" None)
                           (Forall_nil_2 _)))))
           IndexError Hraise).
Defined.



(** X9: what a raising [create_table_slide] leaves behind.  The appended
    slide has its title in every case.  For [data = []] it has no table:
    the call raises before the table is added; so it is when [data[0]] is
    empty, where building the table divides by zero.  With more widths than
    [data[0]] has entries the call raises and the slide has the table with
    every cell still empty: the call raises before any cell is filled. *)
Theorem create_table_slide_raises_early (title : string) (data : list (list string))
    (col_widths : option (list float)) (prs : Presentation) :
  ∃ s,
    slides (create_table_slide title data col_widths prs).2 = slides prs ++ [s]
    ∧ text_frame_text <$> slide_title s = Some (shape_text title)
    ∧ (data = [] →
       (create_table_slide title data col_widths prs).1 = Raise IndexError
       ∧ slide_tables s = [])
    ∧ (data !! 0 = Some [] →
       (create_table_slide title data col_widths prs).1 = Raise ZeroDivisionError
       ∧ slide_tables s = [])
    ∧ (∀ row0, data !! 0 = Some row0 → row0 ≠ [] →
         length row0 < length (default [] col_widths) →
         (∃ e, (create_table_slide title data col_widths prs).1 = Raise e)
         ∧ ∃ t, slide_tables s = [t]
             ∧ tbl_rows t
               = replicate (length data) (replicate (length row0) empty_cell)).
Proof.
  rewrite create_table_slide_eq. cbn [fst snd slides].
  eexists. split; [reflexivity |].
  destruct data as [|r rest].
  { rewrite table_slide_body_empty. cbn [fst snd slide_title slide_tables].
    cbn [fmap option_fmap option_map]. rewrite text_frame_text_of_text.
    repeat split; done. }
  destruct (decide (r = [])) as [->|Hr].
  { rewrite table_slide_body_no_columns. cbn [fst snd slide_title slide_tables].
    cbn [fmap option_fmap option_map]. rewrite text_frame_text_of_text.
    split; [done |]. split; [done |]. split; [done |].
    intros row0 [= <-]. done. }
  rewrite (table_slide_body_run _ _ _ _ Hr). cbn [fst snd slide_title slide_tables].
  cbn [fmap option_fmap option_map]. rewrite text_frame_text_of_text.
  split; [done |]. split; [done |]. split; [by intros [= ->] |].
  intros row0 [= <-] _ Hover.
  set (t0 := new_table (length (r :: rest)) (length r)).
  destruct col_widths as [[|w ws]|]; try (cbn in Hover; lia).
  unfold table_body. change (truthy (Some (w :: ws))) with true. cbv iota.
  change (default [] (Some (w :: ws))) with (w :: ws) in *.
  destruct (width_loop_overflow (w :: ws) 0 t0) as [e Hraise]; [lia | |].
  { unfold t0, new_table. cbn [tbl_columns]. rewrite new_columns_length. lia. }
  destruct (width_loop_frame (w :: ws) 0 t0) as [Hrows _].
  unfold bind. destruct (width_loop (w :: ws) 0 t0) as [res t1].
  cbn [fst snd] in Hraise, Hrows. subst res. cbn [fst snd].
  split; [by exists e |]. eexists. split; [reflexivity |]. by rewrite Hrows.
Qed.

Lemma create_table_slide_raises_early_witness :
  ∃ s,
    slides (create_table_slide "T" [["a"]] (Some [1%float; 2%float]) Presentation_new).2
    = [s]
    ∧ text_frame_text <$> slide_title s = Some "T"
    ∧ ∃ t, slide_tables s = [t] ∧ tbl_rows t = [[empty_cell]].
Proof.
  destruct (create_table_slide_raises_early "T" [["a"]] (Some [1%float; 2%float])
              Presentation_new) as (s & Hs & Htitle & _ & _ & Hrows).
  exists s. split; [exact Hs |]. split; [exact Htitle |].
  apply (Hrows ["a"]); [reflexivity | discriminate | apply le_n].
Defined.
